(** * F4T interface: a shallow embedding of [f4t_interface.py]

    The class [F4T] drives a Watlow F4T controller through the command
    channel it inherits from [Controller] ([send_cmd], [read_items],
    [clear_buffer], attribute [timeout]).  Every method builds a command
    text with an f-string, sends it, and sometimes reads one line back.

    The embedding is a state-and-exception monad over the instance
    attributes.  The channel is represented by the history of what the
    instance did to it, and the device by two functions of that history:
    any deterministic device that nobody else talks to is such a pair. *)

From Stdlib Require Import ZArith List String Ascii Bool QArith Lia.
From Stdlib Require Import DecimalString DecimalZ DecimalPos.
Import ListNotations.

Local Open Scope string_scope.
Local Open Scope Z_scope.

(** ** Python strings *)

Module PyStr.

(** The double quote character, argument of [replace] in [get_profiles]. *)
Definition dquote : ascii := "034"%char.

(** [str.isspace] on the code points below 256. *)
Definition isspace (c : ascii) : bool :=
  let n := N_of_ascii c in
  ((9 <=? n) && (n <=? 13) || (28 <=? n) && (n <=? 32)
   || (n =? 133) || (n =? 160))%N.

Fixpoint lstrip (s : string) : string :=
  match s with
  | String c r => if isspace c then lstrip r else s
  | EmptyString => EmptyString
  end.

Fixpoint rstrip (s : string) : string :=
  match s with
  | String c r =>
      match rstrip r with
      | EmptyString => if isspace c then EmptyString else String c EmptyString
      | r' => String c r'
      end
  | EmptyString => EmptyString
  end.

(** [s.strip()] *)
Definition strip (s : string) : string := rstrip (lstrip s).

(** [s.replace(c, '')] for a one-character [c]. *)
Fixpoint remove (c : ascii) (s : string) : string :=
  match s with
  | String d r => if Ascii.eqb c d then remove c r else String d (remove c r)
  | EmptyString => EmptyString
  end.

(** Truth value of a string: non-empty. *)
Definition truthy (s : string) : bool :=
  match s with EmptyString => false | String _ _ => true end.

(** [str(i)] for an [int]. *)
Definition of_int (z : Z) : string := NilZero.string_of_int (Z.to_int z).

(** [range(a, b)] as the list it iterates over. *)
Definition range (a b : Z) : list Z :=
  map (fun k => a + Z.of_nat k) (seq 0 (Z.to_nat (b - a))).

End PyStr.

(** What an f-string replacement field [{x}] renders for a value [x]. *)
Class Formattable (A : Type) := format : A -> string.

#[export] Instance Formattable_int : Formattable Z := PyStr.of_int.
#[export] Instance Formattable_str : Formattable string := fun s => s.

(** ** Enumerations of [f4t_class] *)

(** A member of a Python [Enum]: its name and its value. *)
Record member := Member { name : string; value : string }.

(** Modelled from the spec: [f4t_class.TempUnits] and [f4t_class.RampScale]
    are imported by the source and not part of it.  The spec describes them
    as enumerations whose values are short textual tokens.  An enumeration
    is given by its members in definition order and by what a replacement
    field [{m}] renders for a member (which depends on the mixins of the
    class). *)
Record PyEnum := {
  members : list member;
  member_format : member -> string
}.

Inductive exn :=
| ValueError      (* raised by [Enum.__call__] on an unknown value *)
| TransportError  (* raised by the channel *)
| TimeoutError.   (* raised by the channel *)

Inductive result (A : Type) :=
| Ok (a : A)
| Raise (e : exn).
Arguments Ok {A} a.
Arguments Raise {A} e.

(** [E(v)]: the first member whose value is [v]. *)
Definition enum_find (E : PyEnum) (v : string) : option member :=
  find (fun m => String.eqb (value m) v) (members E).

Definition enum_call (E : PyEnum) (v : string) : result member :=
  match enum_find E v with
  | Some m => Ok m
  | None => Raise ValueError
  end.

Definition enum_values (E : PyEnum) : list string := map value (members E).

(** ** Python dictionaries with [int] keys

    Insertion ordered: assigning to a present key keeps its place, assigning
    to an absent key appends. *)

Module Dict.

Definition t := list (Z * string).

Definition empty : t := [].

Fixpoint get (k : Z) (d : t) : option string :=
  match d with
  | [] => None
  | (k', v) :: r => if k =? k' then Some v else get k r
  end.

(** [d[k] = v] *)
Fixpoint set (k : Z) (v : string) (d : t) : t :=
  match d with
  | [] => [(k, v)]
  | (k', v') :: r => if k =? k' then (k, v) :: r else (k', v') :: set k v r
  end.

Definition keys (d : t) : list Z := map fst d.

End Dict.

(** ** The channel and the device *)

(** What the instance does to the outside, in the order of the calls. *)
Inductive event :=
| Sent (text : string)     (* [send_cmd(text)] *)
| Read                     (* [read_items()] *)
| Cleared                  (* [clear_buffer()] *)
| Slept (ms : Z)           (* [time.sleep(ms / 1000)] *)
| Printed (text : string). (* [print(text)] *)

(** The history, most recent event first. *)
Definition history := list event.

(** A device: whether a send fails and what a read returns, both decided
    by everything that happened before. *)
Record Device := {
  on_send : history -> string -> option exn;
  on_read : history -> result string
}.

(** ** The instance *)

Record F4T := {
  timeout : option Q;          (* [Controller.timeout], seconds *)
  log : history;               (* the channel of [Controller] *)
  set_point : Q;
  temp_units : member;
  current_profile : Z;
  profiles : Dict.t
}.

Definition with_log (h : history) (s : F4T) : F4T :=
  {| timeout := timeout s; log := h; set_point := set_point s;
     temp_units := temp_units s; current_profile := current_profile s;
     profiles := profiles s |}.

Definition with_temp_units (u : member) (s : F4T) : F4T :=
  {| timeout := timeout s; log := log s; set_point := set_point s;
     temp_units := u; current_profile := current_profile s;
     profiles := profiles s |}.

Definition with_profiles (d : Dict.t) (s : F4T) : F4T :=
  {| timeout := timeout s; log := log s; set_point := set_point s;
     temp_units := temp_units s; current_profile := current_profile s;
     profiles := d |}.

(** ** The monad of methods: state, and exceptions that keep the state *)

Definition M (A : Type) := F4T -> result A * F4T.

Definition ret {A} (a : A) : M A := fun s => (Ok a, s).

Definition bind {A B} (m : M A) (k : A -> M B) : M B :=
  fun s => match m s with
           | (Ok a, s') => k a s'
           | (Raise e, s') => (Raise e, s')
           end.

Declare Scope py_scope.
Delimit Scope py_scope with py.
Notation "x <- m ;; k" := (bind m (fun x => k))
  (at level 100, m at next level, right associativity) : py_scope.
Notation "m ;; k" := (bind m (fun _ => k))
  (at level 100, right associativity) : py_scope.
Local Open Scope py_scope.

Definition lift {A} (r : result A) : M A := fun s => (r, s).

Definition emit (e : event) : M unit := fun s => (Ok tt, with_log (e :: log s) s).

(** ** The methods of [Controller] used by the source

    Modelled from the spec: [f4t_class.Controller] is not part of the
    source.  The spec gives its three operations: sending a command text
    (no return value, may fail), reading one response line (may fail) and
    discarding unread input. *)

Section Methods.

Variable dev : Device.
Variable TempUnits RampScale : PyEnum.

Definition send_cmd (text : string) : M unit :=
  fun s =>
    let s' := with_log (Sent text :: log s) s in
    match on_send dev (log s) text with
    | None => (Ok tt, s')
    | Some e => (Raise e, s')
    end.

Definition read_items : M string :=
  fun s => (on_read dev (log s), with_log (Read :: log s) s).

Definition clear_buffer : M unit := emit Cleared.

(** [time.sleep(t)], [t] given in milliseconds. *)
Definition sleep (ms : Z) : M unit := emit (Slept ms).

Definition print (text : string) : M unit := emit (Printed text).

(** ** [class F4T(Controller)]

    A method takes its arguments as the caller passes them: the defaults
    of the source ([loop = 1], [cascade = 1]) are written out at the call,
    and [units = None] is [None] of an option. *)

(** [__init__], applied to the instance as [super().__init__] left it:
    [base_timeout] and [base_log] are the attributes set by the base
    class. *)
Definition init (set_point : Q) (units : member) (profile : Z)
    (base_timeout : option Q) (base_log : history) : F4T :=
  {| timeout := match base_timeout with
                | None => Some (3 # 2)%Q
                | Some t => Some t
                end;
     log := base_log;
     set_point := set_point;
     temp_units := units;
     current_profile := profile;
     profiles := Dict.empty |}.

Definition get_units : M unit :=
  clear_buffer ;;
  send_cmd ":UNIT:TEMPERATURE?" ;;
  rsp <- read_items ;;
  u <- lift (enum_call TempUnits rsp) ;;
  fun s => (Ok tt, with_temp_units u s).

Definition set_units (units : option member) : M unit :=
  fun s =>
    let units := match units with None => temp_units s | Some u => u end in
    send_cmd (":UNITS:TEMPERATURE " ++ value units) s.

Definition select_profile {P} `{Formattable P} (profile : P) : M unit :=
  send_cmd (":PROGRAM:NUMBER " ++ format profile).

(** The body of the [for] loop of [get_profiles] runs for the numbers of
    [todo] in turn; [break] leaves the rest of them out. *)
Fixpoint get_profiles_loop (todo : list Z) : M unit :=
  match todo with
  | [] => ret tt
  | i :: rest =>
      select_profile i ;;
      sleep 500 ;;
      send_cmd ":PROGRAM:NAME?" ;;
      sleep 500 ;;
      rsp <- read_items ;;
      let name := PyStr.remove PyStr.dquote (PyStr.strip rsp) in
      if PyStr.truthy name
      then (fun s => (Ok tt, with_profiles (Dict.set i name (profiles s)) s)) ;;
           get_profiles_loop rest
      else ret tt
  end.

Definition get_profiles : M unit := get_profiles_loop (PyStr.range 1 40).

Definition prog_mode {A} `{Formattable A} (mode : A) : M unit :=
  send_cmd (":PROGRAM:SELECTED:STATE " ++ format mode).

Definition get_pv {L} `{Formattable L} (loop : L) : M string :=
  send_cmd (":SOURCE:CLOOP" ++ format loop ++ ":PVALUE?") ;;
  read_items.

Definition get_sp {L} `{Formattable L} (loop : L) : M string :=
  send_cmd (":SOURCE:CLOOP" ++ format loop ++ ":SPOINT?") ;;
  read_items.

Definition get_cascadeSP {C} `{Formattable C} (cascade : C) : M string :=
  send_cmd (":SOURCE:CASCADE" ++ format cascade ++ ":SPOINT?") ;;
  read_items.

Definition get_cascadeLoopPV {C} `{Formattable C} (loop : bool) (cascade : C)
    : M string :=
  let sloop := if loop then "OUTER" else "INNER" in
  send_cmd (":SOURCE:CASCADE" ++ format cascade ++ ":" ++ sloop ++ ":PVALUE?") ;;
  read_items.

Definition get_cascadeLoopSP {C} `{Formattable C} (loop : bool) (cascade : C)
    : M string :=
  let sloop := if loop then "OUTER" else "INNER" in
  send_cmd (":SOURCE:CASCADE" ++ format cascade ++ ":" ++ sloop ++ ":SPOINT?") ;;
  read_items.

Definition write_sp {V L} `{Formattable V} `{Formattable L} (val : V) (loop : L)
    : M unit :=
  send_cmd ("SOURCE:CLOOP" ++ format loop ++ ":SPOINT " ++ format val).

Definition is_done {T} `{Formattable T} (ts_num : T) : M bool :=
  send_cmd (":OUTPUT" ++ format ts_num ++ ":STATE?") ;;
  sleep 200 ;;
  rsp <- read_items ;;
  let status := if String.eqb rsp "ON" then true else false in
  ret status.

Definition get_ts {T} `{Formattable T} (ts_num : T) : M unit :=
  send_cmd (":OUTPUT" ++ format ts_num ++ ":STATE?") ;;
  sleep 200 ;;
  rsp <- read_items ;;
  print ("Time Signal#" ++ format ts_num ++ " : " ++ rsp).

Definition set_output {T} `{Formattable T} (ts_num : T) : M unit :=
  send_cmd (":OUTPUT" ++ format ts_num ++ ":STATE?") ;;
  sleep 200 ;;
  rsp <- read_items ;;
  let state := if String.eqb rsp "OFF" then "ON" else "OFF" in
  sleep 200 ;;
  send_cmd (":OUTPUT" ++ format ts_num ++ ":STATE " ++ state).

Definition set_ramScale {L} `{Formattable L} (ramp_scale : string) (loop : L)
    : M unit :=
  scale <- lift (enum_call RampScale ramp_scale) ;;
  send_cmd (":SOURCE:CLOOP" ++ format loop ++ ":RSCALE "
            ++ member_format RampScale scale).

Definition ramp_mode {A L} `{Formattable A} `{Formattable L} (mode : A) (loop : L)
    : M unit :=
  send_cmd (":SOURCE:CLOOP" ++ format loop ++ ":RACTION " ++ format mode).

Definition get_ramp {L} `{Formattable L} (rampType : string) (loop : L) : M unit :=
  let rateMode := if String.eqb rampType "rate" then "RRATE?" else "RTIME?" in
  send_cmd (":SOURCE:CLOOP" ++ format loop ++ ":" ++ rateMode).

Definition set_ramp {V L} `{Formattable V} `{Formattable L}
    (rampType : string) (val : V) (loop : L) : M unit :=
  let rateMode := if String.eqb rampType "rate" then "RRATE?" else "RTIME?" in
  send_cmd (":SOURCE:CLOOP" ++ format loop ++ ":" ++ rateMode ++ " " ++ format val).

End Methods.

Arguments init : clear implicits.

(** ** Calls of the interface

    One constructor per method, so that statements can quantify over every
    operation and over sequences of them. *)

Inductive call :=
| GetUnits
| SetUnits (units : option member)
| GetProfiles
| SelectProfile {P} `{Formattable P} (profile : P)
| ProgMode {A} `{Formattable A} (mode : A)
| GetPv {L} `{Formattable L} (loop : L)
| GetSp {L} `{Formattable L} (loop : L)
| GetCascadeSP {C} `{Formattable C} (cascade : C)
| GetCascadeLoopPV {C} `{Formattable C} (loop : bool) (cascade : C)
| GetCascadeLoopSP {C} `{Formattable C} (loop : bool) (cascade : C)
| WriteSp {V L} `{Formattable V} `{Formattable L} (val : V) (loop : L)
| IsDone {T} `{Formattable T} (ts_num : T)
| GetTs {T} `{Formattable T} (ts_num : T)
| SetOutput {T} `{Formattable T} (ts_num : T)
| SetRamScale {L} `{Formattable L} (ramp_scale : string) (loop : L)
| RampMode {A L} `{Formattable A} `{Formattable L} (mode : A) (loop : L)
| GetRamp {L} `{Formattable L} (rampType : string) (loop : L)
| SetRamp {V L} `{Formattable V} `{Formattable L} (rampType : string) (val : V) (loop : L).

(** What a method returns. *)
Inductive retval :=
| RNone
| RStr (s : string)
| RBool (b : bool).

Definition returning {A} (f : A -> retval) (m : M A) : M retval :=
  a <- m ;; ret (f a).

Section Calls.

Variable dev : Device.
Variable TempUnits RampScale : PyEnum.

Definition run_call (c : call) : M retval :=
  let none := returning (fun _ : unit => RNone) in
  match c with
  | GetUnits => none (get_units dev TempUnits)
  | SetUnits units => none (set_units dev units)
  | GetProfiles => none (get_profiles dev)
  | SelectProfile profile => none (select_profile dev profile)
  | ProgMode mode => none (prog_mode dev mode)
  | GetPv loop => returning RStr (get_pv dev loop)
  | GetSp loop => returning RStr (get_sp dev loop)
  | GetCascadeSP cascade => returning RStr (get_cascadeSP dev cascade)
  | GetCascadeLoopPV loop cascade => returning RStr (get_cascadeLoopPV dev loop cascade)
  | GetCascadeLoopSP loop cascade => returning RStr (get_cascadeLoopSP dev loop cascade)
  | WriteSp val loop => none (write_sp dev val loop)
  | IsDone ts_num => returning RBool (is_done dev ts_num)
  | GetTs ts_num => none (get_ts dev ts_num)
  | SetOutput ts_num => none (set_output dev ts_num)
  | SetRamScale ramp_scale loop => none (set_ramScale dev RampScale ramp_scale loop)
  | RampMode mode loop => none (ramp_mode dev mode loop)
  | GetRamp rampType loop => none (get_ramp dev rampType loop)
  | SetRamp rampType val loop => none (set_ramp dev rampType val loop)
  end.

(** A caller making the calls one after the other, going on after an
    exception: the instance it is left with. *)
Fixpoint run_calls (cs : list call) (s : F4T) : F4T :=
  match cs with
  | [] => s
  | c :: cs' => run_calls cs' (snd (run_call c s))
  end.

End Calls.

Definition is_GetProfiles (c : call) : bool :=
  match c with GetProfiles => true | _ => false end.

Definition is_GetUnits (c : call) : bool :=
  match c with GetUnits => true | _ => false end.

(** Number of lines read from the channel in a history. *)
Definition reads (h : history) : nat :=
  List.length (filter (fun e => match e with Read => true | _ => false end) h).

(** The commands sent, oldest first. *)
Definition sent (h : history) : list string :=
  flat_map (fun e => match e with Sent t => [t] | _ => [] end) (rev h).

(** ** What [get_profiles] finds on a device that names its profiles *)

(** The name kept from a response line. *)
Definition clean (rsp : string) : string :=
  PyStr.remove PyStr.dquote (PyStr.strip rsp).

(** The device answers the name query made after selecting profile [i]
    with the line [raw i], and accepts every command. *)
Definition reports_names (dev : Device) (raw : Z -> string) : Prop :=
  (forall h c, on_send dev h c = None) /\
  (forall h i,
      on_read dev (Slept 500 :: Sent ":PROGRAM:NAME?" :: Slept 500
                   :: Sent (":PROGRAM:NUMBER " ++ PyStr.of_int i) :: h)
      = Ok (raw i)).

(** The numbers of [todo] up to the first one whose cleaned name is empty,
    with their names. *)
Fixpoint discovered (raw : Z -> string) (todo : list Z) : list (Z * string) :=
  match todo with
  | [] => []
  | i :: rest =>
      if PyStr.truthy (clean (raw i))
      then (i, clean (raw i)) :: discovered raw rest
      else []
  end.

Definition assign (d : Dict.t) (kv : Z * string) : Dict.t :=
  Dict.set (fst kv) (snd kv) d.

(** ** Devices and enumerations to run the methods on *)

Module Bench.

(** Modelled from the spec: the members of [f4t_class.TempUnits] are not
    in the source, apart from [TempUnits.C], the default of [__init__].
    The spec lists Celsius and Fahrenheit, each with a short token. *)
Definition C : member := Member "C" "C".
Definition F : member := Member "F" "F".
Definition TempUnits : PyEnum :=
  {| members := [C; F]; member_format := value |}.

(** Modelled from the spec: the members of [f4t_class.RampScale] are not
    in the source; the spec only says that there is a recognized set of
    ramp-scale tokens.  Two tokens stand for it here. *)
Definition RampScale : PyEnum :=
  {| members := [Member "MINUTES" "MINUTES"; Member "HOURS" "HOURS"];
     member_format := value |}.

Definition accept (h : history) (text : string) : option exn := None.

Fixpoint lookup (k : string) (table : list (string * string)) : string :=
  match table with
  | [] => ""
  | (k', v) :: r => if String.eqb k k' then v else lookup k r
  end.

(** A device whose answer to the name query is looked up under the
    selection command that came before it. *)
Definition named (table : list (string * string)) : Device :=
  {| on_send := accept;
     on_read := fun h =>
       match h with
       | Slept _ :: Sent ":PROGRAM:NAME?" :: Slept _ :: Sent c :: _ =>
           Ok (lookup c table)
       | _ => Ok ""
       end |}.

Definition quoted (s : string) : string :=
  String PyStr.dquote (s ++ String PyStr.dquote "").

(** Forty profiles, named [P1] to [P40], reported in quotes. *)
Definition forty_table : list (string * string) :=
  map (fun i => (":PROGRAM:NUMBER " ++ PyStr.of_int i,
                 quoted ("P" ++ PyStr.of_int i)))
      (PyStr.range 1 41).

Definition forty : Device := named forty_table.

(** The scenario of the spec: two profiles, then an empty name. *)
Definition two_table : list (string * string) :=
  [(":PROGRAM:NUMBER 1", quoted "Ramp1");
   (":PROGRAM:NUMBER 2", quoted "Ramp2")].

Definition two : Device := named two_table.

(** A device on which the second profile disappears once three lines
    have been read, that is after a first enumeration. *)
Definition shrinking : Device :=
  {| on_send := accept;
     on_read := fun h =>
       if (reads h <? 3)%nat
       then on_read two h
       else on_read (named [(":PROGRAM:NUMBER 1", quoted "Ramp1")]) h |}.

(** [strip_prefix p s] is what follows [p] in [s]. *)
Fixpoint strip_prefix (p s : string) : option string :=
  match p, s with
  | EmptyString, _ => Some s
  | String a p', String b s' =>
      if Ascii.eqb a b then strip_prefix p' s' else None
  | String _ _, EmptyString => None
  end.

(** The state last written to output 1 in a history, [initial] if none. *)
Fixpoint output1 (initial : string) (h : history) : string :=
  match h with
  | [] => initial
  | Sent c :: r =>
      match strip_prefix ":OUTPUT1:STATE " c with
      | Some tok => tok
      | None => output1 initial r
      end
  | _ :: r => output1 initial r
  end.

(** A device with one output, which takes every write to it and answers
    the state query with the state last written. *)
Definition output (initial : string) : Device :=
  {| on_send := accept;
     on_read := fun h =>
       match h with
       | Slept _ :: Sent ":OUTPUT1:STATE?" :: r => Ok (output1 initial r)
       | _ => Ok ""
       end |}.

(** A device answering every read with the same line. *)
Definition constant (line : string) : Device :=
  {| on_send := accept; on_read := fun _ => Ok line |}.

(** A new instance with the defaults of [__init__] and no timeout given. *)
Definition fresh : F4T := init (22 # 1) C 1 None [].

End Bench.

(** ** Statements about methods *)

(** [respects R m]: whatever [m] returns or raises, the instance it leaves
    is related by [R] to the one it started from. *)
Definition respects (R : F4T -> F4T -> Prop) {A} (m : M A) : Prop :=
  forall s, R s (snd (m s)).

(** A method that leaves the attribute [f] as it found it. *)
Definition preserves {X A} (f : F4T -> X) (m : M A) : Prop :=
  respects (fun s s' => f s' = f s) m.

(** The other token of an output state. *)
Definition inverse_token (tok : string) : string :=
  if String.eqb tok "ON" then "OFF" else "ON".

(** Re-running [get_profiles] leaves the registry that the same run leaves
    when it starts from an empty one. *)
Definition overwrites_fully (dev : Device) (s : F4T) : Prop :=
  profiles (snd (get_profiles dev s))
  = profiles (snd (get_profiles dev (with_profiles Dict.empty s))).

(** ** Reading a history *)

(** Total time slept in a history, in milliseconds. *)
Fixpoint slept (h : history) : Z :=
  match h with
  | [] => 0
  | Slept ms :: r => ms + slept r
  | _ :: r => slept r
  end.

(** Number of commands sent in a history. *)
Definition sends (h : history) : nat :=
  List.length (filter (fun e => match e with Sent _ => true | _ => false end) h).

(** The events of one round of the loop of [get_profiles], most recent
    first. *)
Definition round_events (i : Z) : history :=
  [Read; Slept 500; Sent ":PROGRAM:NAME?"; Slept 500;
   Sent (":PROGRAM:NUMBER " ++ PyStr.of_int i)].

(** The two commands of one round, in the order they are sent. *)
Definition round_commands (i : Z) : list string :=
  [":PROGRAM:NUMBER " ++ PyStr.of_int i; ":PROGRAM:NAME?"].

(** The numbers of [todo] that the loop of [get_profiles] selects on a
    device answering [raw]: those with a name, and the first without. *)
Fixpoint visited (raw : Z -> string) (todo : list Z) : list Z :=
  match todo with
  | [] => []
  | i :: rest =>
      i :: (if PyStr.truthy (clean (raw i)) then visited raw rest else [])
  end.

(** The history left by rounds for the numbers [nums], oldest round
    first. *)
Fixpoint rounds (nums : list Z) (h : history) : history :=
  match nums with
  | [] => h
  | i :: rest => rounds rest (round_events i ++ h)%list
  end.

(** [s] holds the character [c]. *)
Fixpoint contains (c : ascii) (s : string) : bool :=
  match s with
  | EmptyString => false
  | String d r => Ascii.eqb c d || contains c r
  end.

(** Every character of [s] is [c]. *)
Fixpoint only (c : ascii) (s : string) : bool :=
  match s with
  | EmptyString => true
  | String d r => Ascii.eqb c d && only c r
  end.

(** A name as [get_profiles] stores it: not empty, no double quote. *)
Definition stored_name (v : string) : Prop :=
  PyStr.truthy v = true /\ contains PyStr.dquote v = false.

(** [int(s)] for the decimal text of an integer. *)
Definition parse_int (s : string) : option Z :=
  option_map Z.of_int (NilZero.int_of_string s).

(** The token [set_output] writes after reading [rsp]. *)
Definition toggled (rsp : string) : string :=
  if String.eqb rsp "OFF" then "ON" else "OFF".

(** The instance after [n] calls of [m] in a row, going on after an
    exception. *)
Fixpoint times {A} (n : nat) (m : M A) (s : F4T) : F4T :=
  match n with
  | O => s
  | S n' => times n' m (snd (m s))
  end.

(** The device takes every command, and answers the state query for
    output [ts] made right after a write to it with the state written. *)
Definition honours_writes (dev : Device) (ts : string) : Prop :=
  (forall h c, on_send dev h c = None) /\
  (forall h v,
      on_read dev (Slept 200 :: Sent (":OUTPUT" ++ ts ++ ":STATE?")
                   :: Sent (":OUTPUT" ++ ts ++ ":STATE " ++ v) :: h) = Ok v).

(** ** Counting what a method costs on the channel *)

(** A weight for events: [a] for a command sent, [b] for a line read, and
    the time slept when [c] is set. *)
Definition weight (a b : Z) (c : bool) (e : event) : Z :=
  match e with
  | Sent _ => a
  | Read => b
  | Slept ms => if c then ms else 0
  | _ => 0
  end.

Fixpoint total (w : event -> Z) (h : history) : Z :=
  match h with
  | [] => 0
  | e :: r => w e + total w r
  end.

(** [m] adds at most [bound] to the total weight of the history, whether
    it returns or raises. *)
Definition costs (w : event -> Z) {A} (m : M A) (bound : Z) : Prop :=
  forall s, total w (log (snd (m s))) <= total w (log s) + bound.




(** ** White space at the ends of a string *)

Definition starts_with_space (s : string) : bool :=
  match s with
  | EmptyString => false
  | String c _ => PyStr.isspace c
  end.

Fixpoint ends_with_space (s : string) : bool :=
  match s with
  | EmptyString => false
  | String c EmptyString => PyStr.isspace c
  | String _ r => ends_with_space r
  end.

(** * Properties *)

(** ** Relating the instance before and after a method *)

Section Respects.

Variable R : F4T -> F4T -> Prop.
Hypothesis R_refl : forall s, R s s.
Hypothesis R_trans : forall s1 s2 s3, R s1 s2 -> R s2 s3 -> R s1 s3.
Hypothesis R_log : forall h s, R s (with_log h s).

Lemma respects_ret {A} (a : A) : respects R (ret a).
Proof. intro s. apply R_refl. Qed.

Lemma respects_lift {A} (r : result A) : respects R (lift r).
Proof. intro s. apply R_refl. Qed.

Lemma respects_bind {A B} (m : M A) (k : A -> M B) :
  respects R m -> (forall a, respects R (k a)) -> respects R (bind m k).
Proof.
  intros Hm Hk s. unfold bind.
  specialize (Hm s). destruct (m s) as [[a | e] s1]; simpl in *.
  - eapply R_trans; [exact Hm | apply Hk].
  - exact Hm.
Qed.

Lemma respects_emit (e : event) : respects R (emit e).
Proof. intro s. apply R_log. Qed.

Lemma respects_send_cmd dev (text : string) : respects R (send_cmd dev text).
Proof.
  intro s. unfold send_cmd.
  destruct (on_send dev (log s) text); apply R_log.
Qed.

Lemma respects_read_items dev : respects R (read_items dev).
Proof. intro s. apply R_log. Qed.

Lemma respects_returning {A} (f : A -> retval) (m : M A) :
  respects R m -> respects R (returning f m).
Proof.
  intro Hm. unfold returning. apply respects_bind; [exact Hm | ].
  intro a. apply respects_ret.
Qed.

End Respects.

Section FrameOfMethods.

Variable dev : Device.
Variable TempUnits RampScale : PyEnum.
Context {X : Type} (f : F4T -> X).
Hypothesis f_log : forall h s, f (with_log h s) = f s.

Let R := fun s s' : F4T => f s' = f s.

Lemma R_is_refl : forall s, R s s.
Proof. reflexivity. Qed.

Lemma R_is_trans : forall s1 s2 s3, R s1 s2 -> R s2 s3 -> R s1 s3.
Proof. unfold R. intros. congruence. Qed.

Lemma R_ignores_log : forall h s, R s (with_log h s).
Proof. intros. apply f_log. Qed.

Ltac channel_only :=
  unfold preserves; fold R;
  repeat first
    [ apply respects_returning; try exact R_is_refl; try exact R_is_trans
    | apply respects_bind; [ exact R_is_trans | | intros ? ]
    | apply respects_ret; exact R_is_refl
    | apply respects_lift; exact R_is_refl
    | apply respects_emit; exact R_ignores_log
    | apply respects_send_cmd; exact R_ignores_log
    | apply respects_read_items; exact R_ignores_log ].

Lemma preserves_set_units units : preserves f (set_units dev units).
Proof.
  intro s. unfold set_units.
  apply (respects_send_cmd R R_ignores_log).
Qed.

Lemma preserves_select_profile {P} `{Formattable P} (profile : P) :
  preserves f (select_profile dev profile).
Proof. unfold select_profile. channel_only. Qed.

Lemma preserves_prog_mode {A} `{Formattable A} (mode : A) :
  preserves f (prog_mode dev mode).
Proof. unfold prog_mode. channel_only. Qed.

Lemma preserves_get_pv {L} `{Formattable L} (loop : L) :
  preserves f (get_pv dev loop).
Proof. unfold get_pv. channel_only. Qed.

Lemma preserves_get_sp {L} `{Formattable L} (loop : L) :
  preserves f (get_sp dev loop).
Proof. unfold get_sp. channel_only. Qed.

Lemma preserves_get_cascadeSP {C} `{Formattable C} (cascade : C) :
  preserves f (get_cascadeSP dev cascade).
Proof. unfold get_cascadeSP. channel_only. Qed.

Lemma preserves_get_cascadeLoopPV {C} `{Formattable C} loop (cascade : C) :
  preserves f (get_cascadeLoopPV dev loop cascade).
Proof. unfold get_cascadeLoopPV. channel_only. Qed.

Lemma preserves_get_cascadeLoopSP {C} `{Formattable C} loop (cascade : C) :
  preserves f (get_cascadeLoopSP dev loop cascade).
Proof. unfold get_cascadeLoopSP. channel_only. Qed.

Lemma preserves_write_sp {V L} `{Formattable V} `{Formattable L} (val : V) (loop : L) :
  preserves f (write_sp dev val loop).
Proof. unfold write_sp. channel_only. Qed.

Lemma preserves_is_done {T} `{Formattable T} (ts_num : T) :
  preserves f (is_done dev ts_num).
Proof. unfold is_done, sleep. channel_only. Qed.

Lemma preserves_get_ts {T} `{Formattable T} (ts_num : T) :
  preserves f (get_ts dev ts_num).
Proof. unfold get_ts, sleep, print. channel_only. Qed.

Lemma preserves_set_output {T} `{Formattable T} (ts_num : T) :
  preserves f (set_output dev ts_num).
Proof. unfold set_output, sleep. channel_only. Qed.

Lemma preserves_set_ramScale {L} `{Formattable L} ramp_scale (loop : L) :
  preserves f (set_ramScale dev RampScale ramp_scale loop).
Proof. unfold set_ramScale. channel_only. Qed.

Lemma preserves_ramp_mode {A L} `{Formattable A} `{Formattable L} (mode : A) (loop : L) :
  preserves f (ramp_mode dev mode loop).
Proof. unfold ramp_mode. channel_only. Qed.

Lemma preserves_get_ramp {L} `{Formattable L} rampType (loop : L) :
  preserves f (get_ramp dev rampType loop).
Proof. unfold get_ramp. channel_only. Qed.

Lemma preserves_set_ramp {V L} `{Formattable V} `{Formattable L}
    rampType (val : V) (loop : L) :
  preserves f (set_ramp dev rampType val loop).
Proof. unfold set_ramp. channel_only. Qed.

(** [get_units] assigns [temp_units] and nothing else. *)
Lemma preserves_get_units :
  (forall u s, f (with_temp_units u s) = f s) ->
  preserves f (get_units dev TempUnits).
Proof.
  intro f_units. unfold get_units, clear_buffer. channel_only.
  intro s. apply f_units.
Qed.

(** [get_profiles] assigns [profiles] and nothing else. *)
Lemma preserves_get_profiles_loop :
  (forall d s, f (with_profiles d s) = f s) ->
  forall todo, preserves f (get_profiles_loop dev todo).
Proof.
  intros f_profiles todo.
  induction todo as [ | i rest IH]; simpl.
  - channel_only.
  - unfold select_profile, sleep. channel_only.
    match goal with
    | |- respects _ (if ?b then _ else _) => destruct b
    end.
    + channel_only.
      * intro s. apply f_profiles.
      * exact IH.
    + channel_only.
Qed.

Lemma preserves_get_profiles :
  (forall d s, f (with_profiles d s) = f s) ->
  preserves f (get_profiles dev).
Proof. intro Hf. apply preserves_get_profiles_loop, Hf. Qed.

End FrameOfMethods.

(** Every call leaves an attribute alone, unless it is [temp_units] and the
    call is [get_units], or [profiles] and the call is [get_profiles]. *)
Lemma preserves_run_call dev TU RS {X} (f : F4T -> X) (c : call) :
  (forall h s, f (with_log h s) = f s) ->
  is_GetUnits c = false \/ (forall u s, f (with_temp_units u s) = f s) ->
  is_GetProfiles c = false \/ (forall d s, f (with_profiles d s) = f s) ->
  preserves f (run_call dev TU RS c).
Proof.
  intros f_log f_units f_profiles.
  assert (Hret : forall A (g : A -> retval) (m : M A),
             preserves f m -> preserves f (returning g m)).
  { intros A g m Hm. apply respects_returning; [reflexivity | | exact Hm].
    intros s1 s2 s3 H12 H23. congruence. }
  destruct c; simpl; apply Hret.
  - destruct f_units as [Hc | Hf]; [discriminate | ].
    apply preserves_get_units; assumption.
  - apply preserves_set_units; assumption.
  - destruct f_profiles as [Hc | Hf]; [discriminate | ].
    apply preserves_get_profiles; assumption.
  - apply preserves_select_profile; assumption.
  - apply preserves_prog_mode; assumption.
  - apply preserves_get_pv; assumption.
  - apply preserves_get_sp; assumption.
  - apply preserves_get_cascadeSP; assumption.
  - apply preserves_get_cascadeLoopPV; assumption.
  - apply preserves_get_cascadeLoopSP; assumption.
  - apply preserves_write_sp; assumption.
  - apply preserves_is_done; assumption.
  - apply preserves_get_ts; assumption.
  - apply preserves_set_output; assumption.
  - apply preserves_set_ramScale; assumption.
  - apply preserves_ramp_mode; assumption.
  - apply preserves_get_ramp; assumption.
  - apply preserves_set_ramp; assumption.
Qed.

Lemma preserves_run_calls dev TU RS {X} (f : F4T -> X) :
  (forall c, preserves f (run_call dev TU RS c)) ->
  forall cs s, f (run_calls dev TU RS cs s) = f s.
Proof.
  intros Hc cs. induction cs as [ | c cs IH]; intro s; simpl.
  - reflexivity.
  - rewrite IH. apply Hc.
Qed.

(** ** Construction *)

(** C9: when the base class left no timeout, [__init__] sets it to 1.5
    seconds; a timeout that was given stays as given; and [__init__] itself
    issues no command, so the default is in place before the first one. *)
Theorem init_timeout_default :
  forall sp u p bl,
    timeout (init sp u p None bl) = Some (3 # 2)%Q
    /\ (forall t, timeout (init sp u p (Some t) bl) = Some t)
    /\ (forall bt, log (init sp u p bt bl) = bl).
Proof.
  intros sp u p bl. split; [ | split]; intros; reflexivity.
Qed.

(** C10: [select_profile] and [write_sp] leave [current_profile] and
    [set_point] as they are, and after any sequence of calls of the
    interface (of these two in particular) both still hold the values given
    at construction. *)
Theorem select_and_write_keep_convenience_fields :
  forall dev TU RS,
    (forall P (HP : Formattable P) (profile : P) s,
        let s' := snd (select_profile dev profile s) in
        current_profile s' = current_profile s /\ set_point s' = set_point s)
    /\ (forall V L (HV : Formattable V) (HL : Formattable L) (val : V) (loop : L) s,
        let s' := snd (write_sp dev val loop s) in
        current_profile s' = current_profile s /\ set_point s' = set_point s)
    /\ (forall cs sp u p bt bl,
        let s' := run_calls dev TU RS cs (init sp u p bt bl) in
        current_profile s' = p /\ set_point s' = sp).
Proof.
  intros dev TU RS. split; [ | split].
  - intros P HP profile s. split.
    + apply (preserves_select_profile dev current_profile); reflexivity.
    + apply (preserves_select_profile dev set_point); reflexivity.
  - intros V L HV HL val loop s. split.
    + apply (preserves_write_sp dev current_profile); reflexivity.
    + apply (preserves_write_sp dev set_point); reflexivity.
  - intros cs sp u p bt bl. split.
    + rewrite (preserves_run_calls dev TU RS current_profile); [reflexivity | ].
      intro c. apply preserves_run_call; try right; reflexivity.
    + rewrite (preserves_run_calls dev TU RS set_point); [reflexivity | ].
      intro c. apply preserves_run_call; try right; reflexivity.
Qed.

(** ** Output state *)

(** C2: when the line read after the output-state query is [r], [is_done]
    returns [True] exactly when [r] is the token ON, and [False] for every
    other line, the empty one included; it returns a boolean in every case
    and raises nothing. *)
Theorem is_done_true_iff_ON :
  forall dev T (HT : Formattable T) (ts_num : T) s r,
    on_send dev (log s) (":OUTPUT" ++ format ts_num ++ ":STATE?") = None ->
    on_read dev (Slept 200 :: Sent (":OUTPUT" ++ format ts_num ++ ":STATE?") :: log s)
    = Ok r ->
    (fst (is_done dev ts_num s) = Ok true <-> r = "ON")
    /\ (r <> "ON" -> fst (is_done dev ts_num s) = Ok false)
    /\ (exists b, fst (is_done dev ts_num s) = Ok b).
Proof.
  intros dev T HT ts_num s r Hsend Hread.
  assert (E : fst (is_done dev ts_num s) = Ok (String.eqb r "ON")).
  { unfold is_done, bind, send_cmd, sleep, emit, read_items, ret.
    rewrite Hsend. cbn [with_log log]. rewrite Hread. cbn [fst].
    destruct (String.eqb r "ON"); reflexivity. }
  rewrite E. split; [ | split].
  - split.
    + intro H. apply String.eqb_eq. congruence.
    + intro H. apply String.eqb_eq in H. rewrite H. reflexivity.
  - intro H. apply String.eqb_neq in H. rewrite H. reflexivity.
  - eexists. reflexivity.
Qed.

Lemma is_done_true_iff_ON_witness :
  (fst (is_done (Bench.output "ON") 1 Bench.fresh) = Ok true <-> "ON" = "ON")
  /\ ("ON" <> "ON" -> fst (is_done (Bench.output "ON") 1 Bench.fresh) = Ok false)
  /\ (exists b, fst (is_done (Bench.output "ON") 1 Bench.fresh) = Ok b).
Proof.
  apply (is_done_true_iff_ON (Bench.output "ON") Z _ 1 Bench.fresh "ON");
    reflexivity.
Defined.

(** The empty line and a lower-case token both give [False]. *)
Example is_done_other_tokens :
  fst (is_done (Bench.constant "") 1 Bench.fresh) = Ok false
  /\ fst (is_done (Bench.constant "on") 1 Bench.fresh) = Ok false
  /\ fst (is_done (Bench.constant "OFF") 1 Bench.fresh) = Ok false.
Proof. repeat split. Qed.

(** ** Ramp configuration *)

Lemma enum_find_none E v :
  ~ In v (enum_values E) -> enum_find E v = None.
Proof.
  intro Hn. unfold enum_find, enum_values in *.
  induction (members E) as [ | m ms IH]; simpl in *.
  - reflexivity.
  - destruct (String.eqb_spec (value m) v) as [Heq | Hne].
    + exfalso. apply Hn. left. exact Heq.
    + apply IH. intro H. apply Hn. right. exact H.
Qed.

Lemma enum_find_some E v :
  In v (enum_values E) ->
  exists m, enum_find E v = Some m /\ In m (members E) /\ value m = v.
Proof.
  unfold enum_find, enum_values.
  induction (members E) as [ | m ms IH]; simpl.
  - intros [].
  - intro Hin. destruct (String.eqb_spec (value m) v) as [Heq | Hne].
    + exists m. auto.
    + destruct Hin as [Heq | Hin]; [contradiction | ].
      destruct (IH Hin) as (m' & Hf & Hm & Hv).
      exists m'. auto.
Qed.

(** C3: for a value outside the enumeration, [set_ramScale] raises the
    error of the enumeration lookup (the invalid-argument failure) before
    anything is sent: the instance and its channel history are exactly as
    before.  For a value of the enumeration, one write command is sent. *)
Theorem set_ramScale_validates_before_sending :
  forall dev RS L (HL : Formattable L) (ramp_scale : string) (loop : L) s,
    (~ In ramp_scale (enum_values RS) ->
       set_ramScale dev RS ramp_scale loop s = (Raise ValueError, s))
    /\ (In ramp_scale (enum_values RS) ->
        exists m, In m (members RS) /\ value m = ramp_scale /\
          log (snd (set_ramScale dev RS ramp_scale loop s))
          = Sent (":SOURCE:CLOOP" ++ format loop ++ ":RSCALE " ++ member_format RS m)
            :: log s).
Proof.
  intros dev RS L HL ramp_scale loop s. split.
  - intro Hn. unfold set_ramScale, bind, lift, enum_call.
    rewrite (enum_find_none _ _ Hn). reflexivity.
  - intro Hin. destruct (enum_find_some _ _ Hin) as (m & Hf & Hm & Hv).
    exists m. split; [exact Hm | split; [exact Hv | ]].
    unfold set_ramScale, bind, lift, enum_call, send_cmd. rewrite Hf.
    destruct (on_send dev (log s) _); reflexivity.
Qed.

Lemma set_ramScale_validates_before_sending_witness :
  set_ramScale (Bench.constant "") Bench.RampScale "DAYS" 1 Bench.fresh
  = (Raise ValueError, Bench.fresh)
  /\ exists m, In m (members Bench.RampScale) /\ value m = "HOURS" /\
       log (snd (set_ramScale (Bench.constant "") Bench.RampScale "HOURS" 1 Bench.fresh))
       = Sent (":SOURCE:CLOOP" ++ format 1 ++ ":RSCALE "
               ++ member_format Bench.RampScale m) :: log Bench.fresh.
Proof.
  split.
  - apply (set_ramScale_validates_before_sending
             (Bench.constant "") Bench.RampScale Z _ "DAYS" 1 Bench.fresh).
    simpl. intros [H | [H | []]]; discriminate H.
  - apply (set_ramScale_validates_before_sending
             (Bench.constant "") Bench.RampScale Z _ "HOURS" 1 Bench.fresh).
    simpl. right. left. reflexivity.
Defined.

Lemma append_assoc (a b c : string) : (a ++ b) ++ c = a ++ b ++ c.
Proof.
  induction a as [ | x a IH]; simpl; [reflexivity | rewrite IH; reflexivity].
Qed.

(** C6: [set_ramp] sends the query token, question mark included, followed
    by a space and the value: [RRATE?] for the ramp type rate, [RTIME?] for
    time (and for anything else).  For every ramp type the text is the one
    [get_ramp] sends, with a space and the value after it. *)
Theorem set_ramp_sends_query_token_with_value :
  forall dev V L (HV : Formattable V) (HL : Formattable L) (val : V) (loop : L) s,
    log (snd (set_ramp dev "rate" val loop s))
    = Sent (":SOURCE:CLOOP" ++ format loop ++ ":RRATE? " ++ format val) :: log s
    /\ log (snd (set_ramp dev "time" val loop s))
       = Sent (":SOURCE:CLOOP" ++ format loop ++ ":RTIME? " ++ format val) :: log s
    /\ (forall rampType, exists query,
          log (snd (get_ramp dev rampType loop s)) = Sent query :: log s
          /\ log (snd (set_ramp dev rampType val loop s))
             = Sent (query ++ " " ++ format val) :: log s).
Proof.
  intros dev V L HV HL val loop s.
  assert (Hsent : forall text, log (snd (send_cmd dev text s)) = Sent text :: log s).
  { intro text. unfold send_cmd.
    destruct (on_send dev (log s) text); reflexivity. }
  unfold set_ramp, get_ramp. split; [ | split].
  - rewrite Hsent. reflexivity.
  - rewrite Hsent. reflexivity.
  - intro rampType. eexists. split; [apply Hsent | ].
    rewrite Hsent. f_equal. f_equal.
    rewrite !append_assoc. reflexivity.
Qed.

(** On loop 1 with the value 5. *)
Example set_ramp_rate_5 :
  sent (log (snd (set_ramp (Bench.constant "") "rate" 5 1 Bench.fresh)))
  = [":SOURCE:CLOOP1:RRATE? 5"].
Proof. reflexivity. Qed.

(** The query methods that read: one send, then one line read and
    returned. *)
Lemma get_pv_reads_one_line dev L (HL : Formattable L) (loop : L) s :
  on_send dev (log s) (":SOURCE:CLOOP" ++ format loop ++ ":PVALUE?") = None ->
  let s' := snd (get_pv dev loop s) in
  log s' = Read :: Sent (":SOURCE:CLOOP" ++ format loop ++ ":PVALUE?") :: log s
  /\ fst (get_pv dev loop s)
     = on_read dev (Sent (":SOURCE:CLOOP" ++ format loop ++ ":PVALUE?") :: log s).
Proof.
  intro Hsend. unfold get_pv, bind, send_cmd, read_items.
  rewrite Hsend. simpl. split; reflexivity.
Qed.

(** C7, at [get_ramp]: the method sends its query and returns [None]
    without reading; no line is read from the channel, whatever the ramp
    type and the loop. *)
Theorem get_ramp_sends_without_reading :
  forall dev L (HL : Formattable L) (rampType : string) (loop : L) s,
    let rateMode := if String.eqb rampType "rate" then "RRATE?" else "RTIME?" in
    let text := ":SOURCE:CLOOP" ++ format loop ++ ":" ++ rateMode in
    let s' := snd (get_ramp dev rampType loop s) in
    log s' = Sent text :: log s
    /\ reads (log s') = reads (log s)
    /\ fst (get_ramp dev rampType loop s)
       = match on_send dev (log s) text with
         | None => Ok tt
         | Some e => Raise e
         end.
Proof.
  intros dev L HL rampType loop s. unfold get_ramp, send_cmd. cbn zeta.
  destruct (on_send dev (log s) _); repeat split; reflexivity.
Qed.

(** A device with a ramp rate to report: [get_pv] returns the line of the
    device, [get_ramp] returns nothing and leaves the line unread. *)
Example get_ramp_rate_loop_1 :
  get_pv (Bench.constant "2.5") 1 Bench.fresh
  = (Ok "2.5", with_log [Read; Sent ":SOURCE:CLOOP1:PVALUE?"] Bench.fresh)
  /\ get_ramp (Bench.constant "2.5") "rate" 1 Bench.fresh
     = (Ok tt, with_log [Sent ":SOURCE:CLOOP1:RRATE?"] Bench.fresh).
Proof. split; reflexivity. Qed.

(** C5: on a device that takes every write to the output and answers the
    next state query with the state written, and that reports ON or OFF to
    begin with, two calls of [set_output] in a row succeed, the first writes
    the other token, the second writes the first state back, and a query
    made afterwards reports the state observed at the start. *)
Theorem set_output_twice_restores_state :
  forall dev T (HT : Formattable T) (ts_num : T) s tok,
    let query := ":OUTPUT" ++ format ts_num ++ ":STATE?" in
    let write := fun v => ":OUTPUT" ++ format ts_num ++ ":STATE " ++ v in
    tok = "ON" \/ tok = "OFF" ->
    (forall h c, on_send dev h c = None) ->
    on_read dev (Slept 200 :: Sent query :: log s) = Ok tok ->
    (forall h v, on_read dev (Slept 200 :: Sent query :: Sent (write v) :: h) = Ok v) ->
    let s1 := snd (set_output dev ts_num s) in
    let s2 := snd (set_output dev ts_num s1) in
    fst (set_output dev ts_num s) = Ok tt
    /\ fst (set_output dev ts_num s1) = Ok tt
    /\ log s1 = Sent (write (inverse_token tok)) :: Slept 200 :: Read :: Slept 200
                :: Sent query :: log s
    /\ log s2 = Sent (write tok) :: Slept 200 :: Read :: Slept 200
                :: Sent query :: log s1
    /\ on_read dev (Slept 200 :: Sent query :: log s2) = Ok tok.
Proof.
  intros dev T HT ts_num s tok query write Htok Hsend Hfirst Hhonour.
  assert (Hcall : forall s0 r,
             on_read dev (Slept 200 :: Sent query :: log s0) = Ok r ->
             set_output dev ts_num s0
             = (Ok tt,
                with_log (Sent (write (if String.eqb r "OFF" then "ON" else "OFF"))
                          :: Slept 200 :: Read :: Slept 200 :: Sent query :: log s0)
                         s0)).
  { intros s0 r Hr.
    unfold set_output, bind, send_cmd, sleep, emit, read_items.
    fold query. rewrite Hsend. cbn [with_log log]. rewrite Hr.
    cbn [with_log log]. rewrite Hsend. reflexivity. }
  intros s1 s2.
  assert (E1 : set_output dev ts_num s = (Ok tt,
                 with_log (Sent (write (inverse_token tok)) :: Slept 200 :: Read
                           :: Slept 200 :: Sent query :: log s) s)).
  { rewrite (Hcall s tok Hfirst).
    destruct Htok as [-> | ->]; reflexivity. }
  assert (Hsecond : on_read dev (Slept 200 :: Sent query :: log s1)
                    = Ok (inverse_token tok)).
  { unfold s1. rewrite E1. cbn [snd with_log log]. apply Hhonour. }
  assert (E2 : set_output dev ts_num s1 = (Ok tt,
                 with_log (Sent (write tok) :: Slept 200 :: Read
                           :: Slept 200 :: Sent query :: log s1) s1)).
  { rewrite (Hcall s1 _ Hsecond).
    destruct Htok as [-> | ->]; reflexivity. }
  repeat split.
  - rewrite E1. reflexivity.
  - rewrite E2. reflexivity.
  - unfold s1. rewrite E1. reflexivity.
  - unfold s2. rewrite E2. reflexivity.
  - unfold s2. rewrite E2. cbn [snd with_log log]. apply Hhonour.
Qed.

Lemma set_output_twice_restores_state_witness :
  let dev := Bench.output "OFF" in
  let s1 := snd (set_output dev 1 Bench.fresh) in
  let s2 := snd (set_output dev 1 s1) in
  fst (set_output dev 1 Bench.fresh) = Ok tt
  /\ fst (set_output dev 1 s1) = Ok tt
  /\ log s1 = Sent (":OUTPUT" ++ format 1 ++ ":STATE " ++ inverse_token "OFF")
              :: Slept 200 :: Read :: Slept 200
              :: Sent (":OUTPUT" ++ format 1 ++ ":STATE?") :: log Bench.fresh
  /\ log s2 = Sent (":OUTPUT" ++ format 1 ++ ":STATE " ++ "OFF")
              :: Slept 200 :: Read :: Slept 200
              :: Sent (":OUTPUT" ++ format 1 ++ ":STATE?") :: log s1
  /\ on_read dev (Slept 200 :: Sent (":OUTPUT" ++ format 1 ++ ":STATE?") :: log s2)
     = Ok "OFF".
Proof.
  apply (set_output_twice_restores_state
           (Bench.output "OFF") Z _ 1 Bench.fresh "OFF").
  - right. reflexivity.
  - intros h c. reflexivity.
  - reflexivity.
  - intros h v. reflexivity.
Defined.

(** The scenario of the spec: the output reports OFF, [set_output] writes
    ON, and [is_done] then returns [True]. *)
Example toggle_then_is_done :
  let s1 := snd (set_output (Bench.output "OFF") 1 Bench.fresh) in
  sent (log s1) = [":OUTPUT1:STATE?"; ":OUTPUT1:STATE ON"]
  /\ fst (is_done (Bench.output "OFF") 1 s1) = Ok true.
Proof. split; reflexivity. Qed.

(** A first answer that is neither ON nor OFF is taken as ON: OFF is
    written, and the second call writes ON. *)
Example set_output_from_unknown_state :
  let dev := Bench.output "" in
  sent (log (snd (set_output dev 1 (snd (set_output dev 1 Bench.fresh)))))
  = [":OUTPUT1:STATE?"; ":OUTPUT1:STATE OFF"; ":OUTPUT1:STATE?"; ":OUTPUT1:STATE ON"].
Proof. reflexivity. Qed.

(** ** The profile registry *)

Lemma dict_get_set k k' v d :
  Dict.get k (Dict.set k' v d) = if k =? k' then Some v else Dict.get k d.
Proof.
  induction d as [ | [k0 v0] r IH]; simpl.
  - reflexivity.
  - destruct (k' =? k0) eqn:E0; simpl.
    + apply Z.eqb_eq in E0. subst k0.
      destruct (k =? k'); reflexivity.
    + rewrite IH. destruct (k =? k') eqn:E1; [ | reflexivity].
      apply Z.eqb_eq in E1. subst k. rewrite E0. reflexivity.
Qed.

(** One round of the loop of [get_profiles] on a device that names its
    profiles. *)
Lemma get_profiles_loop_step dev raw :
  reports_names dev raw ->
  forall i rest s,
    let h := Read :: Slept 500 :: Sent ":PROGRAM:NAME?" :: Slept 500
             :: Sent (":PROGRAM:NUMBER " ++ PyStr.of_int i) :: log s in
    get_profiles_loop dev (i :: rest) s
    = if PyStr.truthy (clean (raw i))
      then get_profiles_loop dev rest
             (with_profiles (Dict.set i (clean (raw i)) (profiles s)) (with_log h s))
      else (Ok tt, with_log h s).
Proof.
  intros [Hsend Hread] i rest s h.
  cbn [get_profiles_loop].
  unfold bind, select_profile, send_cmd, sleep, emit, read_items, ret,
    format, Formattable_int.
  rewrite Hsend. cbn [with_log log]. rewrite Hsend. cbn [with_log log].
  rewrite Hread. fold (clean (raw i)).
  destruct (PyStr.truthy (clean (raw i))); reflexivity.
Qed.

(** The whole loop on such a device: it ends without an exception and has
    assigned, in order, the entries found before the first empty name. *)
Lemma get_profiles_loop_spec dev raw :
  reports_names dev raw ->
  forall todo s,
    fst (get_profiles_loop dev todo s) = Ok tt
    /\ profiles (snd (get_profiles_loop dev todo s))
       = fold_left assign (discovered raw todo) (profiles s).
Proof.
  intros Hdev todo.
  induction todo as [ | i rest IH]; intro s.
  - split; reflexivity.
  - rewrite (get_profiles_loop_step dev raw Hdev).
    cbn [discovered].
    destruct (PyStr.truthy (clean (raw i))).
    + match goal with
      | |- context [get_profiles_loop dev rest ?s0] =>
          destruct (IH s0) as [IH1 IH2]
      end.
      split; [exact IH1 | ].
      refine (eq_trans IH2 _). reflexivity.
    + split; reflexivity.
Qed.

(** The registry never loses a key in [get_profiles], on any device. *)
Lemma get_profiles_loop_keeps_keys dev k :
  forall todo,
    respects (fun s s' => Dict.get k (profiles s) <> None ->
                          Dict.get k (profiles s') <> None)
             (get_profiles_loop dev todo).
Proof.
  set (R := fun s s' : F4T =>
              Dict.get k (profiles s) <> None -> Dict.get k (profiles s') <> None).
  assert (R_refl : forall s, R s s) by (intros s H; exact H).
  assert (R_trans : forall s1 s2 s3, R s1 s2 -> R s2 s3 -> R s1 s3)
    by (unfold R; intros; auto).
  assert (R_log : forall h s, R s (with_log h s)) by (intros h s H; exact H).
  induction todo as [ | i rest IH]; cbn [get_profiles_loop].
  - apply respects_ret, R_refl.
  - unfold select_profile, sleep.
    repeat first
      [ apply respects_bind; [ exact R_trans | | intros ? ]
      | apply respects_emit; exact R_log
      | apply respects_send_cmd; exact R_log
      | apply respects_read_items; exact R_log ].
    match goal with
    | |- respects _ (if ?b then _ else _) => destruct b
    end.
    + apply respects_bind; [exact R_trans | | intros _; exact IH].
      intros s H. cbn [snd with_profiles profiles].
      rewrite dict_get_set. destruct (k =? i); [discriminate | exact H].
    + apply respects_ret, R_refl.
Qed.

(** C1, at a device with forty named profiles: [get_profiles] selects the
    numbers 1 to 39 in ascending order and stores their names; profile 40,
    which has the name [P40] on the device, is never selected and gets no
    entry. *)
Theorem get_profiles_stops_before_40 :
  let s' := snd (get_profiles Bench.forty Bench.fresh) in
  clean (Bench.lookup ":PROGRAM:NUMBER 40" Bench.forty_table) = "P40"
  /\ Dict.keys (profiles s') = PyStr.range 1 40
  /\ Dict.get 39 (profiles s') = Some "P39"
  /\ Dict.get 40 (profiles s') = None
  /\ existsb (String.eqb ":PROGRAM:NUMBER 39") (sent (log s')) = true
  /\ existsb (String.eqb ":PROGRAM:NUMBER 40") (sent (log s')) = false.
Proof. vm_compute. repeat split. Qed.

(** The scenario of the spec: names Ramp1 and Ramp2 in quotes, then an
    empty name for profile 3.  The registry holds the two entries in
    order and the enumeration ends at profile 3. *)
Example get_profiles_two_named :
  let s' := snd (get_profiles Bench.two Bench.fresh) in
  profiles s' = [(1, "Ramp1"); (2, "Ramp2")]
  /\ sent (log s') = [":PROGRAM:NUMBER 1"; ":PROGRAM:NAME?";
                      ":PROGRAM:NUMBER 2"; ":PROGRAM:NAME?";
                      ":PROGRAM:NUMBER 3"; ":PROGRAM:NAME?"].
Proof. split; reflexivity. Qed.

(** C8, as stated, fails: after a first enumeration that found two
    profiles, a second one that finds only the first leaves the entry of
    the second in the registry. *)
Lemma reenumeration_keeps_earlier_entry :
  ~ overwrites_fully Bench.shrinking (snd (get_profiles Bench.shrinking Bench.fresh)).
Proof. unfold overwrites_fully. vm_compute. discriminate. Qed.

(** What the registries of that run are. *)
Example reenumeration_on_shrinking_device :
  let s1 := snd (get_profiles Bench.shrinking Bench.fresh) in
  profiles s1 = [(1, "Ramp1"); (2, "Ramp2")]
  /\ profiles (snd (get_profiles Bench.shrinking (with_profiles Dict.empty s1)))
     = [(1, "Ramp1")]
  /\ profiles (snd (get_profiles Bench.shrinking s1)) = [(1, "Ramp1"); (2, "Ramp2")].
Proof. repeat split. Qed.

(** C8, amended: [get_profiles] merges into the registry.  On a device
    that names its profiles, the registry afterwards is the earlier one
    with the entries found in this run assigned in order; on any device no
    earlier key is lost; and no other call changes the registry. *)
Theorem get_profiles_merges_into_registry :
  forall dev TU RS s,
    (forall raw, reports_names dev raw ->
       profiles (snd (get_profiles dev s))
       = fold_left assign (discovered raw (PyStr.range 1 40)) (profiles s))
    /\ (forall k, Dict.get k (profiles s) <> None ->
          Dict.get k (profiles (snd (get_profiles dev s))) <> None)
    /\ (forall c, is_GetProfiles c = false ->
          profiles (snd (run_call dev TU RS c s)) = profiles s).
Proof.
  intros dev TU RS s. split; [ | split].
  - intros raw Hdev.
    apply (get_profiles_loop_spec dev raw Hdev).
  - intros k. apply (get_profiles_loop_keeps_keys dev k).
  - intros c Hc.
    apply (preserves_run_call dev TU RS profiles c); auto.
Qed.

Lemma get_profiles_merges_into_registry_witness :
  let raw := fun i => Bench.lookup (":PROGRAM:NUMBER " ++ PyStr.of_int i) Bench.two_table in
  let s := with_profiles [(1, "Old1"); (7, "Old7")] Bench.fresh in
  profiles (snd (get_profiles Bench.two s))
  = fold_left assign (discovered raw (PyStr.range 1 40)) (profiles s)
  /\ Dict.get 7 (profiles (snd (get_profiles Bench.two s))) <> None
  /\ profiles (snd (run_call Bench.two Bench.TempUnits Bench.RampScale
                             (SelectProfile 2) s)) = profiles s.
Proof.
  intros raw s.
  destruct (get_profiles_merges_into_registry
              Bench.two Bench.TempUnits Bench.RampScale s) as (H1 & H2 & H3).
  split; [ | split].
  - apply H1. split; intros; reflexivity.
  - apply H2. simpl. discriminate.
  - apply H3. reflexivity.
Defined.

(** The registry of that run: the old entry of profile 1 is replaced in
    place, the one of profile 7 stays, profile 2 is appended. *)
Example get_profiles_merge_example :
  profiles (snd (get_profiles Bench.two
                   (with_profiles [(1, "Old1"); (7, "Old7")] Bench.fresh)))
  = [(1, "Ramp1"); (7, "Old7"); (2, "Ramp2")].
Proof. reflexivity. Qed.

(** ** The stored temperature unit *)

(** C4, as stated, fails at [set_units] with an argument: the unit asked
    for is sent to the device and the stored unit stays what it was. *)
Lemma set_units_leaves_stored_unit :
  let s' := snd (set_units (Bench.constant "") (Some Bench.F) Bench.fresh) in
  sent (log s') = [":UNITS:TEMPERATURE F"]
  /\ temp_units s' = Bench.C
  /\ temp_units s' <> Bench.F.
Proof. repeat split. discriminate. Qed.

(** C4, amended: the stored unit is the one given at construction or the
    last one parsed by [get_units].  [get_units] stores the member whose
    value is the line of the device, and leaves the stored unit alone when
    it raises; [set_units], with or without an argument, only sends the
    token of a unit; and no other call assigns the stored unit. *)
Theorem temp_units_assigned_by_get_units_only :
  forall dev TU RS s,
    (forall rsp u,
        on_send dev (Cleared :: log s) ":UNIT:TEMPERATURE?" = None ->
        on_read dev (Sent ":UNIT:TEMPERATURE?" :: Cleared :: log s) = Ok rsp ->
        enum_find TU rsp = Some u ->
        fst (get_units dev TU s) = Ok tt
        /\ temp_units (snd (get_units dev TU s)) = u)
    /\ (forall e, fst (get_units dev TU s) = Raise e ->
          temp_units (snd (get_units dev TU s)) = temp_units s)
    /\ (forall units,
          let sent_unit := match units with Some u => u | None => temp_units s end in
          temp_units (snd (set_units dev units s)) = temp_units s
          /\ log (snd (set_units dev units s))
             = Sent (":UNITS:TEMPERATURE " ++ value sent_unit) :: log s)
    /\ (forall c, is_GetUnits c = false ->
          temp_units (snd (run_call dev TU RS c s)) = temp_units s)
    /\ (forall cs, forallb (fun c => negb (is_GetUnits c)) cs = true ->
          temp_units (run_calls dev TU RS cs s) = temp_units s).
Proof.
  intros dev TU RS s.
  assert (Hcall : forall c s0, is_GetUnits c = false ->
             temp_units (snd (run_call dev TU RS c s0)) = temp_units s0).
  { intros c s0 Hc.
    apply (preserves_run_call dev TU RS temp_units c); auto. }
  split; [ | split; [ | split; [ | split]]].
  - intros rsp u Hsend Hread Hfind.
    unfold get_units, bind, clear_buffer, emit, send_cmd, read_items, lift, enum_call.
    cbn [with_log log]. rewrite Hsend. cbn [with_log log]. rewrite Hread, Hfind.
    split; reflexivity.
  - intros e.
    unfold get_units, bind, clear_buffer, emit, send_cmd, read_items, lift, enum_call.
    cbn [with_log log].
    destruct (on_send dev (Cleared :: log s) ":UNIT:TEMPERATURE?"); [reflexivity | ].
    cbn [with_log log].
    destruct (on_read dev (Sent ":UNIT:TEMPERATURE?" :: Cleared :: log s)) as [rsp | e'];
      [ | reflexivity].
    destruct (enum_find TU rsp); [ | reflexivity].
    cbn [fst]. intro H. discriminate H.
  - intros units sent_unit. unfold set_units, send_cmd. fold sent_unit.
    destruct (on_send dev (log s) _); split; reflexivity.
  - intros c Hc. apply Hcall, Hc.
  - intros cs. revert s. induction cs as [ | c cs IH]; intros s Hcs.
    + reflexivity.
    + cbn [forallb] in Hcs. apply andb_true_iff in Hcs. destruct Hcs as [Hc Hcs].
      cbn [run_calls]. rewrite (IH _ Hcs).
      apply Hcall. destruct (is_GetUnits c); [discriminate | reflexivity].
Qed.

Lemma temp_units_assigned_by_get_units_only_witness :
  let dev := Bench.constant "F" in
  (fst (get_units dev Bench.TempUnits Bench.fresh) = Ok tt
   /\ temp_units (snd (get_units dev Bench.TempUnits Bench.fresh)) = Bench.F)
  /\ temp_units (snd (get_units (Bench.constant "K") Bench.TempUnits Bench.fresh))
     = temp_units Bench.fresh
  /\ temp_units (snd (run_call dev Bench.TempUnits Bench.RampScale
                               (SetUnits (Some Bench.F)) Bench.fresh))
     = temp_units Bench.fresh
  /\ temp_units (run_calls dev Bench.TempUnits Bench.RampScale
                           [SetUnits (Some Bench.F); GetProfiles; WriteSp 30 1]
                           Bench.fresh)
     = temp_units Bench.fresh.
Proof.
  intro dev.
  destruct (temp_units_assigned_by_get_units_only
              dev Bench.TempUnits Bench.RampScale Bench.fresh)
    as (Hget & _ & _ & Hcall & Hcalls).
  destruct (temp_units_assigned_by_get_units_only
              (Bench.constant "K") Bench.TempUnits Bench.RampScale Bench.fresh)
    as (_ & Hraise & _).
  split; [ | split; [ | split]].
  - apply (Hget "F" Bench.F); reflexivity.
  - apply (Hraise ValueError). reflexivity.
  - apply Hcall. reflexivity.
  - apply Hcalls. reflexivity.
Defined.

(** ** Enumeration into an empty registry *)

Lemma dict_set_absent k v d :
  ~ In k (Dict.keys d) -> Dict.set k v d = (d ++ [(k, v)])%list.
Proof.
  induction d as [ | [k0 v0] r IH]; simpl; intro Hn.
  - reflexivity.
  - destruct (k =? k0) eqn:E.
    + apply Z.eqb_eq in E. exfalso. apply Hn. left. symmetry. exact E.
    + rewrite IH; [reflexivity | ]. intro H. apply Hn. right. exact H.
Qed.

Lemma fold_assign_fresh :
  forall l d,
    NoDup (map fst l) ->
    (forall k, In k (map fst l) -> ~ In k (Dict.keys d)) ->
    fold_left assign l d = (d ++ l)%list.
Proof.
  induction l as [ | [k v] l IH]; intros d Hnd Hfresh; simpl.
  - rewrite app_nil_r. reflexivity.
  - inversion Hnd as [ | k' l' Hk Hl]; subst.
    unfold assign at 2. cbn [fst snd].
    rewrite dict_set_absent by (apply Hfresh; left; reflexivity).
    rewrite IH.
    + rewrite <- app_assoc. reflexivity.
    + exact Hl.
    + intros k0 Hin Hd. unfold Dict.keys in Hd.
      rewrite map_app in Hd. apply in_app_or in Hd. destruct Hd as [Hd | Hd].
      * apply (Hfresh k0); [right; exact Hin | exact Hd].
      * simpl in Hd. destruct Hd as [<- | []]. apply Hk. exact Hin.
Qed.

Lemma discovered_keys_incl raw todo :
  incl (map fst (discovered raw todo)) todo.
Proof.
  induction todo as [ | i rest IH]; simpl.
  - intros k [].
  - destruct (PyStr.truthy (clean (raw i))); simpl.
    + intros k [<- | Hk]; [left; reflexivity | right; apply IH, Hk].
    + intros k [].
Qed.

Lemma discovered_keys_NoDup raw todo :
  NoDup todo -> NoDup (map fst (discovered raw todo)).
Proof.
  induction todo as [ | i rest IH]; simpl; intro Hnd.
  - constructor.
  - inversion Hnd as [ | i' rest' Hi Hrest]; subst.
    destruct (PyStr.truthy (clean (raw i))); simpl.
    + constructor; [ | apply IH, Hrest].
      intro H. apply Hi. apply (discovered_keys_incl raw rest), H.
    + constructor.
Qed.

Lemma range_NoDup a b : NoDup (PyStr.range a b).
Proof.
  unfold PyStr.range.
  induction (seq_NoDup (Z.to_nat (b - a)) 0) as [ | k l Hk Hl IH]; simpl.
  - constructor.
  - constructor; [ | exact IH].
    intro H. apply in_map_iff in H. destruct H as (k' & Heq & Hin).
    assert (k' = k) by lia. subst k'. contradiction.
Qed.

(** Every name among the entries found is non-empty. *)
Lemma discovered_names_truthy raw todo :
  Forall (fun kv => PyStr.truthy (snd kv) = true) (discovered raw todo).
Proof.
  induction todo as [ | i rest IH]; simpl.
  - constructor.
  - destruct (PyStr.truthy (clean (raw i))) eqn:E; constructor; assumption.
Qed.

(** X1: on a new instance and a device that names its profiles, the registry
    after [get_profiles] lists the numbers from 1 on, each once and in
    ascending order, up to the first empty name and to 39 at most. *)
Theorem get_profiles_from_empty_registry :
  forall dev raw s,
    reports_names dev raw ->
    profiles s = Dict.empty ->
    fst (get_profiles dev s) = Ok tt
    /\ profiles (snd (get_profiles dev s)) = discovered raw (PyStr.range 1 40).
Proof.
  intros dev raw s Hdev Hempty.
  destruct (get_profiles_loop_spec dev raw Hdev (PyStr.range 1 40) s) as [H1 H2].
  split; [exact H1 | ].
  unfold get_profiles. rewrite H2, Hempty.
  apply fold_assign_fresh.
  - apply discovered_keys_NoDup, range_NoDup.
  - intros k _ [].
Qed.

Lemma get_profiles_from_empty_registry_witness :
  let raw := fun i => Bench.lookup (":PROGRAM:NUMBER " ++ PyStr.of_int i) Bench.two_table in
  fst (get_profiles Bench.two Bench.fresh) = Ok tt
  /\ profiles (snd (get_profiles Bench.two Bench.fresh))
     = discovered raw (PyStr.range 1 40).
Proof.
  intro raw.
  apply (get_profiles_from_empty_registry Bench.two raw Bench.fresh).
  - split; intros; reflexivity.
  - reflexivity.
Defined.

(** * Further properties of the methods *)

(** ** What [get_profiles] does on the channel *)

Lemma sent_app (a b : history) : sent (a ++ b)%list = (sent b ++ sent a)%list.
Proof. unfold sent. rewrite rev_app_distr, flat_map_app. reflexivity. Qed.

Lemma reads_app (a b : history) : reads (a ++ b)%list = (reads a + reads b)%nat.
Proof. unfold reads. rewrite filter_app, length_app. reflexivity. Qed.

Lemma slept_app (a b : history) : slept (a ++ b)%list = slept a + slept b.
Proof.
  induction a as [ | e a IH]; simpl; [reflexivity | ].
  destruct e; rewrite ?IH; lia.
Qed.

Lemma rounds_app nums h : exists new, rounds nums h = (new ++ h)%list
  /\ sent new = flat_map round_commands nums
  /\ reads new = List.length nums
  /\ slept new = 1000 * Z.of_nat (List.length nums).
Proof.
  revert h. induction nums as [ | i rest IH]; intro h.
  - exists []. repeat split.
  - destruct (IH (round_events i ++ h)%list) as (new & E & Hs & Hr & Hz).
    exists (new ++ round_events i)%list. cbn [rounds].
    rewrite E, <- app_assoc. split; [reflexivity | ].
    rewrite sent_app, reads_app, slept_app, Hs, Hr, Hz.
    cbn [flat_map List.length]. split; [reflexivity | split].
    + change (reads (round_events i)) with 1%nat. lia.
    + change (slept (round_events i)) with 1000. lia.
Qed.

(** The loop leaves one round of events per number it selects. *)
Lemma get_profiles_loop_log dev raw :
  reports_names dev raw ->
  forall todo s,
    log (snd (get_profiles_loop dev todo s)) = rounds (visited raw todo) (log s).
Proof.
  intros Hdev todo. induction todo as [ | i rest IH]; intro s.
  - reflexivity.
  - rewrite (get_profiles_loop_step dev raw Hdev). cbn [visited rounds].
    destruct (PyStr.truthy (clean (raw i))).
    + rewrite IH. reflexivity.
    + reflexivity.
Qed.

Lemma visited_length raw todo :
  (List.length (visited raw todo) <= List.length todo)%nat
  /\ (todo <> [] -> (1 <= List.length (visited raw todo))%nat).
Proof.
  induction todo as [ | i rest [IH _]]; simpl.
  - split; [lia | congruence].
  - split; [ | lia]. destruct (PyStr.truthy (clean (raw i))); simpl; lia.
Qed.

Lemma range_length a b : List.length (PyStr.range a b) = Z.to_nat (b - a).
Proof. unfold PyStr.range. rewrite length_map, length_seq. reflexivity. Qed.

(** X4: on a device that names its profiles, [get_profiles] sends the
    selection and the name query of each profile it visits and nothing
    else, reads one line per profile, and sleeps one second per profile;
    it visits between 1 and 39 profiles. *)
Theorem get_profiles_traffic :
  forall dev raw s,
    reports_names dev raw ->
    let nums := visited raw (PyStr.range 1 40) in
    let s' := snd (get_profiles dev s) in
    sent (log s')
    = (sent (log s) ++ flat_map round_commands nums)%list
    /\ reads (log s') = (reads (log s) + List.length nums)%nat
    /\ slept (log s') = slept (log s) + 1000 * Z.of_nat (List.length nums)
    /\ (1 <= List.length nums <= 39)%nat.
Proof.
  intros dev raw s Hdev nums s'.
  assert (E : log s' = rounds nums (log s))
    by apply (get_profiles_loop_log dev raw Hdev).
  destruct (rounds_app nums (log s)) as (new & En & Hs & Hr & Hz).
  rewrite E, En, sent_app, reads_app, slept_app, Hs, Hr, Hz.
  repeat split; try lia.
  - apply (visited_length raw (PyStr.range 1 40)). discriminate.
  - change 39%nat with (List.length (PyStr.range 1 40)).
    apply visited_length.
Qed.

Lemma get_profiles_traffic_witness :
  let raw := fun i => Bench.lookup (":PROGRAM:NUMBER " ++ PyStr.of_int i) Bench.two_table in
  let nums := visited raw (PyStr.range 1 40) in
  let s' := snd (get_profiles Bench.two Bench.fresh) in
  sent (log s')
  = (sent (log Bench.fresh) ++ flat_map round_commands nums)%list
  /\ reads (log s') = (reads (log Bench.fresh) + List.length nums)%nat
  /\ slept (log s') = slept (log Bench.fresh) + 1000 * Z.of_nat (List.length nums)
  /\ (1 <= List.length nums <= 39)%nat.
Proof.
  intro raw.
  apply (get_profiles_traffic Bench.two raw Bench.fresh).
  split; intros; reflexivity.
Defined.

(** ** What the registry holds after [get_profiles] *)

Lemma range_nil a b : b <= a -> PyStr.range a b = [].
Proof.
  intro H. unfold PyStr.range.
  replace (Z.to_nat (b - a)) with 0%nat by lia. reflexivity.
Qed.

Lemma range_cons a b : a < b -> PyStr.range a b = a :: PyStr.range (a + 1) b.
Proof.
  intro H. unfold PyStr.range.
  replace (Z.to_nat (b - a)) with (S (Z.to_nat (b - (a + 1)))) by lia.
  cbn [seq map]. rewrite <- seq_shift, map_map. f_equal; [lia | ].
  apply map_ext. intro k. lia.
Qed.

(** The entries found over a range of numbers are those of an initial
    stretch of it: every number of the stretch has a name, and the number
    after it, if still in the range, has none. *)
Lemma discovered_range raw :
  forall n a b,
    Z.to_nat (b - a) = n ->
    exists m,
      a <= m <= Z.max a b
      /\ discovered raw (PyStr.range a b)
         = map (fun i => (i, clean (raw i))) (PyStr.range a m)
      /\ (forall i, a <= i < m -> PyStr.truthy (clean (raw i)) = true)
      /\ (m < b -> clean (raw m) = "").
Proof.
  induction n as [ | n IH]; intros a b Hn.
  - exists a. rewrite !range_nil by lia.
    repeat split; lia.
  - rewrite (range_cons a b) by lia. cbn [discovered].
    destruct (PyStr.truthy (clean (raw a))) eqn:E.
    + destruct (IH (a + 1) b) as (m & Hm & Hd & Ht & He); [lia | ].
      exists m. rewrite (range_cons a m) by lia. cbn [map]. rewrite Hd.
      repeat split; try lia.
      * intros i Hi. destruct (Z.eq_dec i a) as [-> | Hne]; [exact E | ].
        apply Ht. lia.
      * exact He.
    + exists a. rewrite range_nil by lia.
      repeat split; try lia.
      intros _. destruct (clean (raw a)); [reflexivity | discriminate E].
Qed.

(** X2: on a device that names its profiles, a first enumeration leaves a
    registry whose keys are exactly 1 to [n] without a gap, each with the
    cleaned name of the device, where [n] is below 40 and profile [n + 1]
    has an empty name unless [n] is 39. *)
Theorem get_profiles_registry_is_initial_stretch :
  forall dev raw s,
    reports_names dev raw ->
    profiles s = Dict.empty ->
    exists n,
      0 <= n <= 39
      /\ profiles (snd (get_profiles dev s))
         = map (fun i => (i, clean (raw i))) (PyStr.range 1 (n + 1))
      /\ (forall i, 1 <= i <= n -> PyStr.truthy (clean (raw i)) = true)
      /\ (n < 39 -> clean (raw (n + 1)) = "").
Proof.
  intros dev raw s Hdev Hempty.
  destruct (get_profiles_loop_spec dev raw Hdev (PyStr.range 1 40) s) as [_ Hp].
  unfold get_profiles. rewrite Hempty in Hp.
  rewrite fold_assign_fresh in Hp;
    [ | apply discovered_keys_NoDup, range_NoDup | intros k _ [] ].
  cbn [Dict.empty app] in Hp.
  destruct (discovered_range raw 39 1 40 eq_refl) as (m & Hm & Hd & Ht & He).
  exists (m - 1). replace (m - 1 + 1) with m by lia.
  rewrite Hp, Hd. repeat split; try lia.
  - intros i Hi. apply Ht. lia.
  - intro H. apply He. lia.
Qed.

Lemma get_profiles_registry_is_initial_stretch_witness :
  let raw := fun i => Bench.lookup (":PROGRAM:NUMBER " ++ PyStr.of_int i) Bench.two_table in
  exists n,
    0 <= n <= 39
    /\ profiles (snd (get_profiles Bench.two Bench.fresh))
       = map (fun i => (i, clean (raw i))) (PyStr.range 1 (n + 1))
    /\ (forall i, 1 <= i <= n -> PyStr.truthy (clean (raw i)) = true)
    /\ (n < 39 -> clean (raw (n + 1)) = "").
Proof.
  intro raw.
  apply (get_profiles_registry_is_initial_stretch Bench.two raw Bench.fresh).
  - split; intros; reflexivity.
  - reflexivity.
Defined.

Lemma dict_get_fold_assign k :
  forall l d,
    NoDup (map fst l) ->
    Dict.get k (fold_left assign l d)
    = match Dict.get k l with
      | Some v => Some v
      | None => Dict.get k d
      end.
Proof.
  induction l as [ | [k0 v0] l IH]; intros d Hnd; cbn [fold_left].
  - reflexivity.
  - inversion Hnd as [ | x l' Hk Hl]; subst.
    rewrite (IH _ Hl). unfold assign. cbn [fst snd Dict.get].
    rewrite dict_get_set.
    destruct (Dict.get k l) eqn:El.
    + destruct (k =? k0) eqn:E; [ | reflexivity].
      apply Z.eqb_eq in E. subst k0. exfalso. apply Hk.
      clear - El. induction l as [ | [k1 v1] l IH]; simpl in *; [discriminate | ].
      destruct (k =? k1) eqn:E1.
      * left. apply Z.eqb_eq in E1. symmetry. exact E1.
      * right. apply IH, El.
    + destruct (k =? k0); reflexivity.
Qed.

(** X3: on a device that names its profiles, looking a number up after
    [get_profiles] gives the name found in this run if the number was
    reached by it, and what the registry held before otherwise. *)
Theorem get_profiles_lookup :
  forall dev raw s k,
    reports_names dev raw ->
    Dict.get k (profiles (snd (get_profiles dev s)))
    = match Dict.get k (discovered raw (PyStr.range 1 40)) with
      | Some v => Some v
      | None => Dict.get k (profiles s)
      end.
Proof.
  intros dev raw s k Hdev.
  destruct (get_profiles_loop_spec dev raw Hdev (PyStr.range 1 40) s) as [_ Hp].
  unfold get_profiles. rewrite Hp.
  apply dict_get_fold_assign, discovered_keys_NoDup, range_NoDup.
Qed.

Lemma get_profiles_lookup_witness :
  let raw := fun i => Bench.lookup (":PROGRAM:NUMBER " ++ PyStr.of_int i) Bench.two_table in
  let s := with_profiles [(2, "Old2"); (7, "Old7")] Bench.fresh in
  Dict.get 7 (profiles (snd (get_profiles Bench.two s)))
  = match Dict.get 7 (discovered raw (PyStr.range 1 40)) with
    | Some v => Some v
    | None => Dict.get 7 (profiles s)
    end.
Proof.
  intros raw s.
  apply (get_profiles_lookup Bench.two raw s 7).
  split; intros; reflexivity.
Defined.

(** ** The names kept *)

Lemma remove_not_contains c s : contains c (PyStr.remove c s) = false.
Proof.
  induction s as [ | d r IH]; simpl; [reflexivity | ].
  destruct (Ascii.eqb c d) eqn:E; simpl; [exact IH | ].
  rewrite E, IH. reflexivity.
Qed.

Lemma remove_empty_iff c s : PyStr.remove c s = "" <-> only c s = true.
Proof.
  induction s as [ | d r IH]; simpl; [tauto | ].
  destruct (Ascii.eqb c d); simpl; [exact IH | ].
  split; discriminate.
Qed.

(** X8: the name kept from a line never holds a double quote, wherever the
    quotes were in the line; and it is empty, which ends the enumeration,
    exactly when the line without its outer white space is made of double
    quotes only (or of nothing). *)
Theorem clean_removes_every_quote :
  forall rsp,
    contains PyStr.dquote (clean rsp) = false
    /\ (PyStr.truthy (clean rsp) = false
        <-> only PyStr.dquote (PyStr.strip rsp) = true).
Proof.
  intro rsp. unfold clean. split.
  - apply remove_not_contains.
  - rewrite <- remove_empty_iff.
    destruct (PyStr.remove PyStr.dquote (PyStr.strip rsp)); simpl.
    + tauto.
    + split; discriminate.
Qed.

(** White space between the quotes is kept: such a name is not empty and
    the enumeration goes on. *)
Example clean_keeps_inner_space :
  clean (Bench.quoted " ") = " " /\ clean (" " ++ Bench.quoted "" ++ " ") = "".
Proof. split; reflexivity. Qed.

Lemma dict_set_values (P : string -> Prop) k v d :
  P v -> Forall (fun kv => P (snd kv)) d ->
  Forall (fun kv => P (snd kv)) (Dict.set k v d).
Proof.
  intros Hv Hd. induction Hd as [ | [k0 v0] r H0 Hr IH]; simpl.
  - constructor; [exact Hv | constructor].
  - destruct (k =? k0); constructor; assumption.
Qed.

(** X5: on any device, and whether it returns or raises, [get_profiles] keeps
    this invariant of the registry: every name in it is non-empty and free
    of double quotes. *)
Theorem get_profiles_keeps_names_well_formed :
  forall dev s,
    Forall (fun kv => stored_name (snd kv)) (profiles s) ->
    Forall (fun kv => stored_name (snd kv)) (profiles (snd (get_profiles dev s))).
Proof.
  intros dev.
  set (R := fun s s' : F4T =>
              Forall (fun kv => stored_name (snd kv)) (profiles s) ->
              Forall (fun kv => stored_name (snd kv)) (profiles s')).
  assert (R_refl : forall s, R s s) by (intros s H; exact H).
  assert (R_trans : forall s1 s2 s3, R s1 s2 -> R s2 s3 -> R s1 s3)
    by (unfold R; intros; auto).
  assert (R_log : forall h s, R s (with_log h s)) by (intros h s H; exact H).
  enough (H : forall todo, respects R (get_profiles_loop dev todo))
    by (intro s; apply (H (PyStr.range 1 40) s)).
  induction todo as [ | i rest IH]; cbn [get_profiles_loop].
  - apply respects_ret, R_refl.
  - unfold select_profile, sleep.
    repeat first
      [ apply respects_bind; [ exact R_trans | | intros ? ]
      | apply respects_emit; exact R_log
      | apply respects_send_cmd; exact R_log
      | apply respects_read_items; exact R_log ].
    match goal with
    | |- respects _ (if ?b then _ else _) => destruct b eqn:E
    end.
    + apply respects_bind; [exact R_trans | | intros _; exact IH].
      intros s H. cbn [snd with_profiles profiles].
      apply dict_set_values; [ | exact H].
      split; [exact E | apply remove_not_contains].
    + apply respects_ret, R_refl.
Qed.

Lemma get_profiles_keeps_names_well_formed_witness :
  Forall (fun kv => stored_name (snd kv))
         (profiles (snd (get_profiles Bench.forty Bench.fresh))).
Proof.
  apply (get_profiles_keeps_names_well_formed Bench.forty Bench.fresh).
  constructor.
Defined.

(** ** Toggling an output *)

(** One call of [set_output] when the channel takes the commands and the
    line read is [r]. *)
Lemma set_output_step dev T (HT : Formattable T) (ts_num : T) s r :
  (forall h c, on_send dev h c = None) ->
  on_read dev (Slept 200 :: Sent (":OUTPUT" ++ format ts_num ++ ":STATE?") :: log s)
  = Ok r ->
  set_output dev ts_num s
  = (Ok tt,
     with_log (Sent (":OUTPUT" ++ format ts_num ++ ":STATE " ++ toggled r)
               :: Slept 200 :: Read :: Slept 200
               :: Sent (":OUTPUT" ++ format ts_num ++ ":STATE?") :: log s) s).
Proof.
  intros Hsend Hr.
  unfold set_output, bind, send_cmd, sleep, emit, read_items.
  rewrite Hsend. cbn [with_log log]. rewrite Hr.
  cbn [with_log log]. rewrite Hsend. reflexivity.
Qed.

Lemma toggled_thrice r : toggled (toggled (toggled r)) = toggled r.
Proof. unfold toggled. destruct (String.eqb r "OFF"); reflexivity. Qed.

(** X10: on a device that honours writes, whatever line [r] the first call
    reads, the state reported after [n + 1] calls of [set_output] in a row
    is the token written by the first call when [n] is even and the other
    token when [n] is odd: from the first call on the output alternates
    between ON and OFF, and an unknown first answer counts as ON. *)
Theorem set_output_alternates :
  forall dev T (HT : Formattable T) (ts_num : T) n s r,
    let query := ":OUTPUT" ++ format ts_num ++ ":STATE?" in
    honours_writes dev (format ts_num) ->
    on_read dev (Slept 200 :: Sent query :: log s) = Ok r ->
    on_read dev (Slept 200 :: Sent query
                 :: log (times (S n) (set_output dev ts_num) s))
    = Ok (if Nat.even n then toggled r else toggled (toggled r)).
Proof.
  intros dev T HT ts_num n s r query [Hsend Hhonour].
  revert s r. induction n as [ | n IH]; intros s r Hr.
  - cbn [times Nat.even].
    rewrite (set_output_step dev T HT ts_num s r Hsend Hr).
    cbn [snd with_log log]. apply Hhonour.
  - change (times (S (S n)) (set_output dev ts_num) s)
      with (times (S n) (set_output dev ts_num) (snd (set_output dev ts_num s))).
    rewrite (IH _ (toggled r)).
    + rewrite Nat.even_succ, <- Nat.negb_even.
      destruct (Nat.even n); cbn [negb]; [reflexivity | ].
      rewrite toggled_thrice. reflexivity.
    + rewrite (set_output_step dev T HT ts_num s r Hsend Hr).
      cbn [snd with_log log]. apply Hhonour.
Qed.

Lemma set_output_alternates_witness :
  on_read (Bench.output "")
          (Slept 200 :: Sent (":OUTPUT" ++ format 1 ++ ":STATE?")
           :: log (times 3 (set_output (Bench.output "") 1) Bench.fresh))
  = Ok (if Nat.even 2 then toggled "" else toggled (toggled "")).
Proof.
  apply (set_output_alternates (Bench.output "") Z _ 1 2 Bench.fresh "").
  - split; intros; reflexivity.
  - reflexivity.
Defined.

(** X11: when the read of [set_output] raises, the exception goes to the caller
    and no write is sent: the only command sent is the state query. *)
Theorem set_output_writes_nothing_when_read_fails :
  forall dev T (HT : Formattable T) (ts_num : T) s e,
    let query := ":OUTPUT" ++ format ts_num ++ ":STATE?" in
    on_send dev (log s) query = None ->
    on_read dev (Slept 200 :: Sent query :: log s) = Raise e ->
    fst (set_output dev ts_num s) = Raise e
    /\ sent (log (snd (set_output dev ts_num s))) = (sent (log s) ++ [query])%list.
Proof.
  intros dev T HT ts_num s e query Hsend Hread.
  unfold set_output, bind, send_cmd, sleep, emit, read_items.
  fold query. rewrite Hsend. cbn [with_log log]. rewrite Hread.
  cbn [fst snd with_log log]. split; [reflexivity | ].
  change (Read :: Slept 200 :: Sent query :: log s)
    with ([Read; Slept 200; Sent query] ++ log s)%list.
  rewrite sent_app. reflexivity.
Qed.

Lemma set_output_writes_nothing_when_read_fails_witness :
  let dev := {| on_send := Bench.accept; on_read := fun _ => Raise TimeoutError |} in
  fst (set_output dev 1 Bench.fresh) = Raise TimeoutError
  /\ sent (log (snd (set_output dev 1 Bench.fresh)))
     = (sent (log Bench.fresh) ++ [(":OUTPUT" ++ format 1 ++ ":STATE?")%string])%list.
Proof.
  intro dev.
  apply (set_output_writes_nothing_when_read_fails dev Z _ 1 Bench.fresh TimeoutError);
    reflexivity.
Defined.

(** X12: after [set_output] on a device that honours writes, [is_done] on the
    same output returns [True] exactly when the line [set_output] read was
    OFF. *)
Theorem is_done_after_set_output :
  forall dev T (HT : Formattable T) (ts_num : T) s r,
    honours_writes dev (format ts_num) ->
    on_read dev (Slept 200 :: Sent (":OUTPUT" ++ format ts_num ++ ":STATE?") :: log s)
    = Ok r ->
    fst (is_done dev ts_num (snd (set_output dev ts_num s)))
    = Ok (String.eqb r "OFF").
Proof.
  intros dev T HT ts_num s r [Hsend Hhonour] Hr.
  rewrite (set_output_step dev T HT ts_num s r Hsend Hr). cbn [snd].
  unfold is_done, bind, send_cmd, sleep, emit, read_items, ret.
  rewrite Hsend. cbn [with_log log]. rewrite Hhonour. cbn [fst].
  unfold toggled. destruct (String.eqb r "OFF"); reflexivity.
Qed.

Lemma is_done_after_set_output_witness :
  fst (is_done (Bench.output "OFF") 1
               (snd (set_output (Bench.output "OFF") 1 Bench.fresh)))
  = Ok (String.eqb "OFF" "OFF").
Proof.
  apply (is_done_after_set_output (Bench.output "OFF") Z _ 1 Bench.fresh "OFF").
  - split; intros; reflexivity.
  - reflexivity.
Defined.

(** ** Units read and written back *)

(** X13: after a [get_units] that succeeded, [set_units] without an argument
    sends back the very line the device had answered. *)
Theorem set_units_after_get_units_echoes_device :
  forall dev TU s rsp u,
    on_send dev (Cleared :: log s) ":UNIT:TEMPERATURE?" = None ->
    on_read dev (Sent ":UNIT:TEMPERATURE?" :: Cleared :: log s) = Ok rsp ->
    enum_find TU rsp = Some u ->
    let s1 := snd (get_units dev TU s) in
    log (snd (set_units dev None s1))
    = Sent (":UNITS:TEMPERATURE " ++ rsp) :: log s1.
Proof.
  intros dev TU s rsp u Hsend Hread Hfind s1.
  assert (Hu : temp_units s1 = u).
  { unfold s1, get_units, bind, clear_buffer, emit, send_cmd, read_items,
      lift, enum_call.
    cbn [with_log log]. rewrite Hsend. cbn [with_log log].
    rewrite Hread, Hfind. reflexivity. }
  assert (Hv : value u = rsp).
  { unfold enum_find in Hfind. apply find_some in Hfind.
    apply String.eqb_eq, Hfind. }
  unfold set_units, send_cmd. rewrite Hu, Hv.
  destruct (on_send dev (log s1) _); reflexivity.
Qed.

Lemma set_units_after_get_units_echoes_device_witness :
  let dev := Bench.constant "F" in
  let s1 := snd (get_units dev Bench.TempUnits Bench.fresh) in
  log (snd (set_units dev None s1)) = Sent (":UNITS:TEMPERATURE " ++ "F") :: log s1.
Proof.
  apply (set_units_after_get_units_echoes_device
           (Bench.constant "F") Bench.TempUnits Bench.fresh "F" Bench.F);
    reflexivity.
Defined.

(** ** Numbers in commands *)

Lemma parse_int_of_int z : parse_int (PyStr.of_int z) = Some z.
Proof.
  unfold parse_int, PyStr.of_int.
  rewrite NilZero.isi.
  - cbn [option_map]. rewrite DecimalZ.of_to. reflexivity.
  - destruct z; simpl; try discriminate.
    intro H. injection H as H.
    apply (DecimalPos.Unsigned.to_uint_nonnil _ H).
  - destruct z; simpl; try discriminate.
    intro H. injection H as H.
    apply (DecimalPos.Unsigned.to_uint_nonnil _ H).
Qed.

(** X15: the command of [select_profile] carries the profile number in a form
    that reads back as the same number, for every integer, in range or
    not: two numbers never give the same command. *)
Theorem select_profile_number_reads_back :
  forall dev (profile : Z) s,
    exists text,
      log (snd (select_profile dev profile s))
      = Sent (":PROGRAM:NUMBER " ++ text) :: log s
      /\ parse_int text = Some profile.
Proof.
  intros dev profile s. exists (PyStr.of_int profile). split.
  - unfold select_profile, send_cmd.
    destruct (on_send dev (log s) _); reflexivity.
  - apply parse_int_of_int.
Qed.

(** ** Bounds on the traffic of a call *)

Section Costs.

Variables (a b : Z) (c : bool).
Hypothesis a_nonneg : 0 <= a.
Hypothesis b_nonneg : 0 <= b.

Let w := weight a b c.

Lemma costs_ret {A} (x : A) : costs w (ret x) 0.
Proof. intro s. simpl. lia. Qed.

Lemma costs_lift {A} (r : result A) : costs w (lift r) 0.
Proof. intro s. simpl. lia. Qed.

Lemma costs_bind {A B} (m : M A) (k : A -> M B) x y :
  0 <= y ->
  costs w m x -> (forall v, costs w (k v) y) -> costs w (bind m k) (x + y).
Proof.
  intros Hy Hm Hk s. unfold bind.
  specialize (Hm s). destruct (m s) as [[v | e] s1]; cbn [snd] in *.
  - specialize (Hk v s1). lia.
  - lia.
Qed.

Lemma costs_weaken {A} (m : M A) x y : costs w m x -> x <= y -> costs w m y.
Proof. intros Hm Hxy s. specialize (Hm s). lia. Qed.

Lemma costs_emit (e : event) : costs w (emit e) (w e).
Proof. intro s. simpl. lia. Qed.

Lemma costs_send_cmd dev text : costs w (send_cmd dev text) a.
Proof.
  intro s. unfold send_cmd.
  destruct (on_send dev (log s) text); simpl; lia.
Qed.

Lemma costs_read_items dev : costs w (read_items dev) b.
Proof. intro s. simpl. lia. Qed.

Lemma costs_returning {A} (f : A -> retval) (m : M A) x :
  costs w m x -> costs w (returning f m) x.
Proof.
  intros Hm s. unfold returning, bind.
  specialize (Hm s). destruct (m s) as [[v | e] s1]; simpl in *; lia.
Qed.

(** One round of the loop of [get_profiles] costs two commands, one line
    and a second of sleep at most; the loop costs that for each number. *)
Lemma costs_get_profiles_loop dev todo :
  costs w (get_profiles_loop dev todo)
        (Z.of_nat (List.length todo) * (2 * a + b + (if c then 1000 else 0))).
Proof.
  induction todo as [ | i rest IH]; intro s.
  - simpl. lia.
  - cbn [get_profiles_loop List.length].
    unfold bind at 1 2 3 4 5.
    unfold select_profile, send_cmd, sleep, emit, read_items.
    destruct (on_send dev (log s) _);
      [cbn [snd with_log log total]; fold w; unfold w, weight; fold w;
       destruct c; nia | ].
    cbn [with_log log].
    destruct (on_send dev _ ":PROGRAM:NAME?");
      [cbn [snd with_log log total]; unfold w, weight; destruct c; nia | ].
    cbn [with_log log].
    destruct (on_read dev _) as [rsp | e];
      [ | cbn [snd with_log log total]; unfold w, weight; destruct c; nia].
    destruct (PyStr.truthy _).
    + unfold bind.
      match goal with
      | |- context [get_profiles_loop dev rest ?s0] => specialize (IH s0)
      end.
      cbn [snd with_log with_profiles log total] in IH |- *.
      unfold w, weight in IH |- *. destruct c; nia.
    + cbn [snd ret with_log log total]. unfold w, weight. destruct c; nia.
Qed.

Lemma costs_bind_last {A B} (m : M A) (k : A -> M B) x y :
  costs w m x -> (forall v, costs w (k v) y) -> 0 <= y ->
  costs w (bind m k) (x + y).
Proof. intros Hm Hk Hy. apply costs_bind; assumption. Qed.

Lemma costs_assign_units u :
  costs w (fun s => (Ok tt, with_temp_units u s)) 0.
Proof. intro s. simpl. lia. Qed.

Lemma costs_print text : costs w (print text) 0.
Proof. intro s. simpl. lia. Qed.

Ltac cost :=
  cbv zeta;
  repeat first
    [ eapply costs_bind_last; [ | intros ? | ]
    | apply costs_ret
    | apply costs_lift
    | apply costs_print
    | apply costs_emit
    | apply costs_send_cmd
    | apply costs_read_items
    | apply costs_assign_units ].

Ltac arith := unfold w; cbn [weight]; destruct c; lia.

(** What a call costs at most: a round per number for [get_profiles], and
    for every other call two commands, one line and 0.4 seconds. *)
Lemma costs_run_call dev TU RS (call : call) :
  costs w (run_call dev TU RS call)
        (if is_GetProfiles call
         then 39 * (2 * a + b + (if c then 1000 else 0))
         else 2 * a + b + (if c then 400 else 0)).
Proof.
  destruct call; cbn [run_call is_GetProfiles]; apply costs_returning.
  - eapply costs_weaken; [unfold get_units, clear_buffer; cost; arith | arith].
  - intro s. unfold set_units.
    eapply (costs_weaken _ _ _ (costs_send_cmd dev _)). arith.
  - change 39 with (Z.of_nat (List.length (PyStr.range 1 40))).
    apply costs_get_profiles_loop.
  - eapply costs_weaken; [unfold select_profile; cost | arith].
  - eapply costs_weaken; [unfold prog_mode; cost | arith].
  - eapply costs_weaken; [unfold get_pv; cost; arith | arith].
  - eapply costs_weaken; [unfold get_sp; cost; arith | arith].
  - eapply costs_weaken; [unfold get_cascadeSP; cost; arith | arith].
  - eapply costs_weaken; [unfold get_cascadeLoopPV; cost; arith | arith].
  - eapply costs_weaken; [unfold get_cascadeLoopSP; cost; arith | arith].
  - eapply costs_weaken; [unfold write_sp; cost | arith].
  - eapply costs_weaken; [unfold is_done, sleep; cost; arith | arith].
  - eapply costs_weaken; [unfold get_ts, sleep; cost; arith | arith].
  - eapply costs_weaken; [unfold set_output, sleep; cost; arith | arith].
  - eapply costs_weaken; [unfold set_ramScale; cost; arith | arith].
  - eapply costs_weaken; [unfold ramp_mode; cost | arith].
  - eapply costs_weaken; [unfold get_ramp; cost | arith].
  - eapply costs_weaken; [unfold set_ramp; cost | arith].
Qed.

End Costs.

Lemma reads_total h : Z.of_nat (reads h) = total (weight 0 1 false) h.
Proof.
  unfold reads. induction h as [ | e h IH]; [reflexivity | ].
  destruct e; cbn [filter List.length total weight]; lia.
Qed.

Lemma sends_total h : Z.of_nat (sends h) = total (weight 1 0 false) h.
Proof.
  unfold sends. induction h as [ | e h IH]; [reflexivity | ].
  destruct e; cbn [filter List.length total weight]; lia.
Qed.

Lemma slept_total h : slept h = total (weight 0 0 true) h.
Proof.
  induction h as [ | e h IH]; [reflexivity | ].
  destruct e; cbn [slept total weight]; lia.
Qed.

(** X16: on any device, and whether the call returns or raises: a call other
    than [get_profiles] reads at most one line, sends at most two commands
    and sleeps at most 0.4 seconds; [get_profiles] reads at most 39 lines,
    sends at most 78 commands and sleeps at most 39 seconds. *)
Theorem call_traffic_is_bounded :
  forall dev TU RS (c : call) s,
    let s' := snd (run_call dev TU RS c s) in
    let k := if is_GetProfiles c then 39 else 1 in
    Z.of_nat (reads (log s')) <= Z.of_nat (reads (log s)) + k
    /\ Z.of_nat (sends (log s')) <= Z.of_nat (sends (log s)) + 2 * k
    /\ slept (log s') <= slept (log s) + (if is_GetProfiles c then 39000 else 400).
Proof.
  intros dev TU RS c s s' k.
  rewrite !reads_total, !sends_total, !slept_total.
  pose proof (costs_run_call 0 1 false (Z.le_refl 0) Z.le_0_1 dev TU RS c s) as Hr.
  pose proof (costs_run_call 1 0 false Z.le_0_1 (Z.le_refl 0) dev TU RS c s) as Hs.
  pose proof (costs_run_call 0 0 true (Z.le_refl 0) (Z.le_refl 0) dev TU RS c s) as Hz.
  fold s' in Hr, Hs, Hz. unfold k.
  destruct (is_GetProfiles c); cbn in Hr, Hs, Hz; lia.
Qed.

(** ** Which calls can reject their arguments *)










(** X14: [get_units] raises [ValueError] exactly for a line that is not the
    value of a unit; by then the buffer is cleared, the query sent and the
    line read, and the stored unit is still the old one. *)
Theorem get_units_rejects_unknown_token :
  forall dev TU s rsp,
    on_send dev (Cleared :: log s) ":UNIT:TEMPERATURE?" = None ->
    on_read dev (Sent ":UNIT:TEMPERATURE?" :: Cleared :: log s) = Ok rsp ->
    (fst (get_units dev TU s) = Raise ValueError <-> ~ In rsp (enum_values TU))
    /\ log (snd (get_units dev TU s))
       = Read :: Sent ":UNIT:TEMPERATURE?" :: Cleared :: log s
    /\ (~ In rsp (enum_values TU) ->
        temp_units (snd (get_units dev TU s)) = temp_units s).
Proof.
  intros dev TU s rsp Hsend Hread.
  unfold get_units, bind, clear_buffer, emit, send_cmd, read_items, lift, enum_call.
  cbn [with_log log]. rewrite Hsend. cbn [with_log log]. rewrite Hread.
  destruct (enum_find TU rsp) as [u | ] eqn:E; cbn [fst snd with_temp_units with_log log].
  - assert (Hin : In rsp (enum_values TU)).
    { unfold enum_find in E. apply find_some in E. destruct E as [Hm Hv].
      apply String.eqb_eq in Hv. subst rsp. apply in_map, Hm. }
    split; [ | split].
    + split; [discriminate | contradiction].
    + reflexivity.
    + contradiction.
  - assert (Hn : ~ In rsp (enum_values TU)).
    { intro Hin. destruct (enum_find_some _ _ Hin) as (m & Hf & _). congruence. }
    split; [ | split].
    + split; [intros _; exact Hn | reflexivity].
    + reflexivity.
    + reflexivity.
Qed.

Lemma get_units_rejects_unknown_token_witness :
  let dev := Bench.constant "K" in
  (fst (get_units dev Bench.TempUnits Bench.fresh) = Raise ValueError
   <-> ~ In "K" (enum_values Bench.TempUnits))
  /\ log (snd (get_units dev Bench.TempUnits Bench.fresh))
     = Read :: Sent ":UNIT:TEMPERATURE?" :: Cleared :: log Bench.fresh
  /\ (~ In "K" (enum_values Bench.TempUnits) ->
      temp_units (snd (get_units dev Bench.TempUnits Bench.fresh))
      = temp_units Bench.fresh).
Proof.
  apply (get_units_rejects_unknown_token (Bench.constant "K") Bench.TempUnits
           Bench.fresh "K"); reflexivity.
Defined.

(** ** [get_profiles] when the channel fails *)

(** One round of the loop, whatever the read gives. *)
Lemma get_profiles_loop_step_at dev i rest s :
  (forall h c, on_send dev h c = None) ->
  let h0 := Slept 500 :: Sent ":PROGRAM:NAME?" :: Slept 500
            :: Sent (":PROGRAM:NUMBER " ++ PyStr.of_int i) :: log s in
  get_profiles_loop dev (i :: rest) s
  = match on_read dev h0 with
    | Ok rsp =>
        if PyStr.truthy (clean rsp)
        then get_profiles_loop dev rest
               (with_profiles (Dict.set i (clean rsp) (profiles s))
                              (with_log (Read :: h0) s))
        else (Ok tt, with_log (Read :: h0) s)
    | Raise e => (Raise e, with_log (Read :: h0) s)
    end.
Proof.
  intros Hsend h0.
  cbn [get_profiles_loop].
  unfold bind, select_profile, send_cmd, sleep, emit, read_items, ret,
    format, Formattable_int.
  rewrite Hsend. cbn [with_log log]. rewrite Hsend. cbn [with_log log].
  fold h0. destruct (on_read dev h0) as [rsp | e]; [ | reflexivity].
  fold (clean rsp). destruct (PyStr.truthy (clean rsp)); reflexivity.
Qed.

Lemma range_split a k b :
  a <= k < b ->
  PyStr.range a b = (PyStr.range a k ++ k :: PyStr.range (k + 1) b)%list.
Proof.
  intro H. remember (Z.to_nat (k - a)) as n eqn:En.
  revert a H En. induction n as [ | n IH]; intros a H En.
  - assert (a = k) by lia. subst a.
    rewrite (range_nil k k) by lia. apply range_cons. lia.
  - rewrite (range_cons a b), (range_cons a k) by lia.
    rewrite (IH (a + 1)) by lia. reflexivity.
Qed.

Lemma get_profiles_loop_fails dev raw k e post :
  (forall h c, on_send dev h c = None) ->
  (forall h,
      on_read dev (Slept 500 :: Sent ":PROGRAM:NAME?" :: Slept 500
                   :: Sent (":PROGRAM:NUMBER " ++ PyStr.of_int k) :: h) = Raise e) ->
  forall pre s,
    (forall i, In i pre ->
       PyStr.truthy (clean (raw i)) = true
       /\ forall h,
           on_read dev (Slept 500 :: Sent ":PROGRAM:NAME?" :: Slept 500
                        :: Sent (":PROGRAM:NUMBER " ++ PyStr.of_int i) :: h)
           = Ok (raw i)) ->
    fst (get_profiles_loop dev (pre ++ k :: post) s) = Raise e
    /\ profiles (snd (get_profiles_loop dev (pre ++ k :: post) s))
       = fold_left assign (map (fun i => (i, clean (raw i))) pre) (profiles s).
Proof.
  intros Hsend Hfail pre. induction pre as [ | i pre IH]; intros s Hpre.
  - cbn [app map fold_left].
    rewrite (get_profiles_loop_step_at dev k post s Hsend), Hfail.
    split; reflexivity.
  - cbn [app map fold_left].
    destruct (Hpre i (or_introl eq_refl)) as [Ht Hr].
    rewrite (get_profiles_loop_step_at dev i _ s Hsend), Hr, Ht.
    match goal with
    | |- context [get_profiles_loop dev _ ?s0] =>
        destruct (IH s0) as [IH1 IH2]
    end.
    { intros j Hj. apply Hpre. right. exact Hj. }
    split; [exact IH1 | ]. refine (eq_trans IH2 _). reflexivity.
Qed.

(** X7: when the read for profile [k] raises, after the profiles before it
    gave a name each, [get_profiles] lets the exception through and the
    registry keeps what was stored so far: the names of 1 to [k - 1] are
    assigned, nothing is undone. *)
Theorem get_profiles_keeps_entries_stored_before_failure :
  forall dev raw k e s,
    1 <= k <= 39 ->
    (forall h c, on_send dev h c = None) ->
    (forall i, 1 <= i < k ->
       PyStr.truthy (clean (raw i)) = true
       /\ forall h,
           on_read dev (Slept 500 :: Sent ":PROGRAM:NAME?" :: Slept 500
                        :: Sent (":PROGRAM:NUMBER " ++ PyStr.of_int i) :: h)
           = Ok (raw i)) ->
    (forall h,
        on_read dev (Slept 500 :: Sent ":PROGRAM:NAME?" :: Slept 500
                     :: Sent (":PROGRAM:NUMBER " ++ PyStr.of_int k) :: h) = Raise e) ->
    fst (get_profiles dev s) = Raise e
    /\ profiles (snd (get_profiles dev s))
       = fold_left assign (map (fun i => (i, clean (raw i))) (PyStr.range 1 k))
                   (profiles s).
Proof.
  intros dev raw k e s Hk Hsend Hpre Hfail.
  unfold get_profiles. rewrite (range_split 1 k 40) by lia.
  apply (get_profiles_loop_fails dev raw k e _ Hsend Hfail).
  intros i Hi. apply Hpre.
  unfold PyStr.range in Hi. apply in_map_iff in Hi.
  destruct Hi as (j & <- & Hj). apply in_seq in Hj. lia.
Qed.

Lemma get_profiles_keeps_entries_stored_before_failure_witness :
  let dev :=
    {| on_send := Bench.accept;
       on_read := fun h =>
         match h with
         | Slept _ :: Sent _ :: Slept _ :: Sent ":PROGRAM:NUMBER 3" :: _ =>
             Raise TimeoutError
         | _ => on_read Bench.two h
         end |} in
  let raw := fun i => Bench.lookup (":PROGRAM:NUMBER " ++ PyStr.of_int i) Bench.two_table in
  fst (get_profiles dev Bench.fresh) = Raise TimeoutError
  /\ profiles (snd (get_profiles dev Bench.fresh))
     = fold_left assign (map (fun i => (i, clean (raw i))) (PyStr.range 1 3))
                 (profiles Bench.fresh).
Proof.
  intros dev raw.
  apply (get_profiles_keeps_entries_stored_before_failure dev raw 3 TimeoutError
           Bench.fresh).
  - lia.
  - intros h c. reflexivity.
  - intros i Hi.
    assert (Hc : i = 1 \/ i = 2) by lia.
    destruct Hc as [-> | ->]; split; try reflexivity; intro h; reflexivity.
  - intro h. reflexivity.
Defined.

(** ** Order of the registry *)

Lemma dict_set_keys k v d :
  exists added, Dict.keys (Dict.set k v d) = (Dict.keys d ++ added)%list.
Proof.
  unfold Dict.keys.
  induction d as [ | [k0 v0] r [added IH]]; cbn [Dict.set].
  - exists [k]. reflexivity.
  - destruct (k =? k0) eqn:E; cbn [map fst].
    + exists []. apply Z.eqb_eq in E. subst k0. rewrite app_nil_r. reflexivity.
    + exists added. rewrite IH. reflexivity.
Qed.

(** X6: on any device, [get_profiles] leaves the numbers already in the
    registry where they were, in the same order; the numbers it adds come
    after them. *)
Theorem get_profiles_appends_new_keys :
  forall dev s,
    exists added,
      Dict.keys (profiles (snd (get_profiles dev s)))
      = (Dict.keys (profiles s) ++ added)%list.
Proof.
  intros dev.
  set (R := fun s s' : F4T =>
              exists added,
                Dict.keys (profiles s') = (Dict.keys (profiles s) ++ added)%list).
  assert (R_refl : forall s, R s s)
    by (intro s; exists []; rewrite app_nil_r; reflexivity).
  assert (R_trans : forall s1 s2 s3, R s1 s2 -> R s2 s3 -> R s1 s3).
  { intros s1 s2 s3 [a1 H1] [a2 H2]. exists (a1 ++ a2)%list.
    rewrite H2, H1, app_assoc. reflexivity. }
  assert (R_log : forall h s, R s (with_log h s))
    by (intros h s; exists []; cbn [with_log profiles]; rewrite app_nil_r;
        reflexivity).
  enough (H : forall todo, respects R (get_profiles_loop dev todo))
    by (intro s; apply (H (PyStr.range 1 40) s)).
  induction todo as [ | i rest IH]; cbn [get_profiles_loop].
  - apply respects_ret, R_refl.
  - unfold select_profile, sleep.
    repeat first
      [ apply respects_bind; [ exact R_trans | | intros ? ]
      | apply respects_emit; exact R_log
      | apply respects_send_cmd; exact R_log
      | apply respects_read_items; exact R_log ].
    match goal with
    | |- respects _ (if ?b then _ else _) => destruct b
    end.
    + apply respects_bind; [exact R_trans | | intros _; exact IH].
      intros s. cbn [snd with_profiles profiles]. apply dict_set_keys.
    + apply respects_ret, R_refl.
Qed.

(** ** Stripping a line *)

Lemma lstrip_no_leading_space s : starts_with_space (PyStr.lstrip s) = false.
Proof.
  induction s as [ | c r IH]; simpl; [reflexivity | ].
  destruct (PyStr.isspace c) eqn:E; [exact IH | simpl; exact E].
Qed.

Lemma rstrip_no_trailing_space s : ends_with_space (PyStr.rstrip s) = false.
Proof.
  induction s as [ | c r IH]; simpl; [reflexivity | ].
  destruct (PyStr.rstrip r) as [ | d r'] eqn:E.
  - destruct (PyStr.isspace c) eqn:Ec; simpl; [reflexivity | exact Ec].
  - exact IH.
Qed.

Lemma rstrip_keeps_head s :
  starts_with_space s = false -> starts_with_space (PyStr.rstrip s) = false.
Proof.
  destruct s as [ | c r]; simpl; [reflexivity | ].
  intro Hc. destruct (PyStr.rstrip r); [rewrite Hc | ]; simpl; exact Hc.
Qed.

Lemma lstrip_id s : starts_with_space s = false -> PyStr.lstrip s = s.
Proof.
  destruct s as [ | c r]; simpl; [reflexivity | ].
  intro Hc. rewrite Hc. reflexivity.
Qed.

Lemma rstrip_id s : ends_with_space s = false -> PyStr.rstrip s = s.
Proof.
  induction s as [ | c r IH]; [reflexivity | ].
  intro H. cbn [PyStr.rstrip]. destruct r as [ | d r'].
  - simpl in *. rewrite H. reflexivity.
  - rewrite IH by exact H. reflexivity.
Qed.

(** X9: the line as [get_profiles] strips it has no white space at either end,
    and stripping it again changes nothing. *)
Theorem strip_leaves_no_outer_space :
  forall s,
    starts_with_space (PyStr.strip s) = false
    /\ ends_with_space (PyStr.strip s) = false
    /\ PyStr.strip (PyStr.strip s) = PyStr.strip s.
Proof.
  intro s.
  assert (H1 : starts_with_space (PyStr.strip s) = false)
    by apply rstrip_keeps_head, lstrip_no_leading_space.
  assert (H2 : ends_with_space (PyStr.strip s) = false)
    by apply rstrip_no_trailing_space.
  split; [exact H1 | split; [exact H2 | ]].
  unfold PyStr.strip at 1. rewrite (lstrip_id _ H1). apply rstrip_id, H2.
Qed.

(** ** Addressing the halves of a cascade *)


